(** * Profit & Loss report: period generation, aggregation and rollup

    Shallow embedding of the computation in the [ProfitLoss] page
    (the [productMap], [profitData] and [statistics] memos).

    Conventions of the model.
    - A JavaScript [Date] is its time value in milliseconds.  The first
      part of the development reads a time value as local time, which is
      exact in a zone with a fixed offset from UTC: there local time and
      UTC differ by a translation that cancels in every comparison.  The
      section on time zones takes UTC time values and a zone whose offset
      changes at given instants, and converts between the two as ECMA-262
      LocalTime and UTC do.  What is stated about the generated windows is
      stated there, for a zone with a fixed offset; a zone with
      daylight-saving transitions shows what fails without that condition.
    - JavaScript numbers are idealised as exact rationals ([Q]); the decimal
      strings of the database columns are represented by the rational they
      denote ([parseFloat] is then the identity), and a nullable column is
      an [option].  The statements about amounts concern which quantity a
      field is computed from, signs, zero tests and guards.
    - [Date] accessors follow ECMA-262 (Day, TimeWithinDay, MakeDay,
      MakeTime, MakeDate); the date-fns helpers follow the library's
      implementation on top of those accessors. *)

From Stdlib Require Import ZArith QArith Qround Qabs Lia Lqa List Sorted Bool Ascii String.
From stdpp Require Import base gmap strings pretty list fin_maps.
Import ListNotations.

Local Open Scope Z_scope.

(* ------------------------------------------------------------------ *)
(** * Time values and the civil calendar (ECMA-262, section Date)      *)
(* ------------------------------------------------------------------ *)

Definition msPerSecond : Z := 1000.
Definition msPerMinute : Z := 60000.
Definition msPerHour   : Z := 3600000.
Definition msPerDay    : Z := 86400000.

Definition Day (t : Z) : Z := t / msPerDay.
Definition TimeWithinDay (t : Z) : Z := t mod msPerDay.

(** Day number (days since 1970-01-01) of the civil date [y]-[m]-[d],
    months counted 1..12, in the proleptic Gregorian calendar.  The year
    is taken to start in March so that the leap day comes last. *)
Definition days_from_civil (y m d : Z) : Z :=
  let y' := if m <=? 2 then y - 1 else y in
  let mp := if m <=? 2 then m + 9 else m - 3 in
  365 * y' + y' / 4 - y' / 100 + y' / 400 + (153 * mp + 2) / 5 + d - 1 - 719468.

(** Civil date (year, month 1..12, day) of a day number: the days since
    0000-03-01 are cut into 400-year, 100-year, 4-year and 1-year cycles. *)
Definition civil_from_days (z : Z) : Z * Z * Z :=
  let n := z + 719468 in
  let era := n / 146097 in
  let doe := n mod 146097 in
  let c := Z.min (doe / 36524) 3 in
  let doc := doe - 36524 * c in
  let q := doc / 1461 in
  let doq := doc mod 1461 in
  let yq := Z.min (doq / 365) 3 in
  let doy := doq - 365 * yq in
  let y' := 400 * era + 100 * c + 4 * q + yq in
  let mp := (5 * doy + 2) / 153 in
  let d := doy - (153 * mp + 2) / 5 + 1 in
  let m := if mp <? 10 then mp + 3 else mp - 9 in
  (if m <=? 2 then y' + 1 else y', m, d).

Definition isLeap (y : Z) : bool :=
  ((y mod 4 =? 0) && negb (y mod 100 =? 0)) || (y mod 400 =? 0).

(** Number of days of month [m] (1..12) of year [y]. *)
Definition monthLength (y m : Z) : Z :=
  if m =? 2 then (if isLeap y then 29 else 28)
  else if (m =? 4) || (m =? 6) || (m =? 9) || (m =? 11) then 30
  else 31.

Definition YearFromTime (t : Z) : Z := fst (fst (civil_from_days (Day t))).
(** Months are 0..11 for the JavaScript accessors. *)
Definition MonthFromTime (t : Z) : Z := snd (fst (civil_from_days (Day t))) - 1.
Definition DateFromTime (t : Z) : Z := snd (civil_from_days (Day t)).
Definition HourFromTime (t : Z) : Z := (t / msPerHour) mod 24.
Definition MinFromTime (t : Z) : Z := (t / msPerMinute) mod 60.
Definition SecFromTime (t : Z) : Z := (t / msPerSecond) mod 60.
Definition msFromTime (t : Z) : Z := t mod msPerSecond.

Definition MakeTime (hour min sec ms : Z) : Z :=
  hour * msPerHour + min * msPerMinute + sec * msPerSecond + ms.

(** [month] is 0-based and may lie outside 0..11; [date] may lie outside
    the month: both overflow into the neighbouring months. *)
Definition MakeDay (year month date : Z) : Z :=
  let ym := year + month / 12 in
  let mn := month mod 12 in
  days_from_civil ym (mn + 1) 1 + date - 1.

Definition MakeDate (day time : Z) : Z := day * msPerDay + time.

(** ** [Date.prototype] accessors and mutators *)

Definition getFullYear := YearFromTime.
Definition getMonth := MonthFromTime.
Definition getDate := DateFromTime.
Definition getHours := HourFromTime.

(** [date.setHours(h, m, s, ms)] *)
Definition setHours4 (t hour min sec ms : Z) : Z :=
  MakeDate (Day t) (MakeTime hour min sec ms).

(** [date.setHours(h)]: minutes, seconds and milliseconds are kept. *)
Definition setHours (t hour : Z) : Z :=
  MakeDate (Day t) (MakeTime hour (MinFromTime t) (SecFromTime t) (msFromTime t)).

(** [date.setDate(d)] *)
Definition setDate (t dt : Z) : Z :=
  MakeDate (MakeDay (YearFromTime t) (MonthFromTime t) dt) (TimeWithinDay t).

(** [date.setMonth(m)] and [date.setMonth(m, d)] *)
Definition setMonth (t month : Z) : Z :=
  MakeDate (MakeDay (YearFromTime t) month (DateFromTime t)) (TimeWithinDay t).
Definition setMonth2 (t month dt : Z) : Z :=
  MakeDate (MakeDay (YearFromTime t) month dt) (TimeWithinDay t).

(** [date.setFullYear(y)] and [date.setFullYear(y, m, d)] *)
Definition setFullYear (t year : Z) : Z :=
  MakeDate (MakeDay year (MonthFromTime t) (DateFromTime t)) (TimeWithinDay t).
Definition setFullYear3 (t year month dt : Z) : Z :=
  MakeDate (MakeDay year month dt) (TimeWithinDay t).

(** ** date-fns helpers used by the page *)

Definition startOfDay (d : Z) : Z := setHours4 d 0 0 0 0.

Definition startOfMonth (d : Z) : Z := setHours4 (setDate d 1) 0 0 0 0.

(** date-fns builds the result from a fresh date; the time of day of that
    date is erased by the final [setHours], so [d] itself serves. *)
Definition startOfYear (d : Z) : Z :=
  setHours4 (setFullYear3 d (getFullYear d) 0 1) 0 0 0 0.

Definition addDays (d amount : Z) : Z :=
  if amount =? 0 then d else setDate d (getDate d + amount).

Definition subDays (d amount : Z) : Z := addDays d (- amount).

Definition addMonths (d amount : Z) : Z :=
  if amount =? 0 then d
  else
    let dayOfMonth := getDate d in
    let endOfDesiredMonth := setMonth2 d (getMonth d + amount + 1) 0 in
    let daysInMonth := getDate endOfDesiredMonth in
    if daysInMonth <=? dayOfMonth then endOfDesiredMonth
    else setFullYear3 d (getFullYear endOfDesiredMonth)
                        (getMonth endOfDesiredMonth) dayOfMonth.

Definition subMonths (d amount : Z) : Z := addMonths d (- amount).

Definition addYears (d amount : Z) : Z := addMonths d (amount * 12).

Definition subYears (d amount : Z) : Z := addYears d (- amount).

(* ------------------------------------------------------------------ *)
(** * Records fetched by the page (shared/schema)                       *)
(* ------------------------------------------------------------------ *)

Inductive TimeRange := hourly | daily | monthly | yearly.

(** [transactionType] of an account row. *)
Inductive TransactionType := sale | purchase | return_ | refund | adjustment.

Definition TransactionType_eqb (a b : TransactionType) : bool :=
  match a, b with
  | sale, sale | purchase, purchase | return_, return_
  | refund, refund | adjustment, adjustment => true
  | _, _ => false
  end.

Module Product.
Record t := mk {
  id : string;
  costPrice : option Q;     (* nullable decimal column *)
  stockQuantity : Z
}.
End Product.

Module OrderItem.
Record t := mk { productId : string; quantity : Z }.
End OrderItem.

Module Order.
Record t := mk {
  createdAt : Z;
  totalAmount : Q;
  items : list OrderItem.t
}.
End Order.

Module ReturnItem.
Record t := mk { productId : string; quantity : Z }.
End ReturnItem.

Module Return.
Record t := mk {
  createdAt : Z;
  refundAmount : option Q;  (* nullable decimal column *)
  items : list ReturnItem.t
}.
End Return.

Module Account.
Record t := mk {
  transactionDate : Z;
  transactionType : TransactionType;
  profit : Q
}.
End Account.

(** One row of [profitData]. *)
Module ProfitData.
Record t := mk {
  period : string;
  purchaseProfit : Q;
  purchaseLoss : Q;
  salesProfit : Q;
  salesLoss : Q;
  totalProfit : Q;
  totalLoss : Q;
  revenue : Q;
  cost : Q;
  orders : Z;
  returns : Z
}.
End ProfitData.

(** The object returned by the [statistics] memo. *)
Module Statistics.
Record t := mk {
  totalPurchaseProfit : Q;
  totalPurchaseLoss : Q;
  totalSalesProfit : Q;
  totalSalesLoss : Q;
  totalProfit : Q;
  totalLoss : Q;
  netProfit : Q;
  totalRevenue : Q;
  totalCost : Q;
  profitMargin : Q;
  inventoryValue : Q;
  totalOrders : Z;
  totalReturns : Z;
  returnRate : Q
}.
End Statistics.

(* ------------------------------------------------------------------ *)
(** * Numbers                                                          *)
(* ------------------------------------------------------------------ *)

Definition Qltb (x y : Q) : bool := negb (Qle_bool y x).

(** [parseFloat(x.toFixed(2))]: the nearest multiple of 1/100, ties away
    from zero ([toFixed] rounds the magnitude, ties to the larger one). *)
Definition toFixed2 (x : Q) : Q :=
  if Qltb x 0
  then Qmake (- Qfloor ((- x) * 100 + (1 # 2))%Q) 100
  else Qmake (Qfloor (x * 100 + (1 # 2))%Q) 100.

(* ------------------------------------------------------------------ *)
(** * Period generation                                                *)
(* ------------------------------------------------------------------ *)

(** The indices of [for (let i = n; i >= 0; i--)], in loop order. *)
Fixpoint countdown (n : nat) : list Z :=
  match n with
  | O => [0]
  | S n' => Z.of_nat n :: countdown n'
  end.

Definition periods (timeRange : TimeRange) (now : Z) : list Z :=
  match timeRange with
  | hourly  => map (fun i => setHours4 now (getHours now - i) 0 0 0) (countdown 23)
  | daily   => map (fun i => subDays (startOfDay now) i) (countdown 29)
  | monthly => map (fun i => subMonths (startOfMonth now) i) (countdown 11)
  | yearly  => map (fun i => subYears (startOfYear now) i) (countdown 4)
  end.

Definition nextPeriod (timeRange : TimeRange) (period : Z) : Z :=
  match timeRange with
  | hourly  => setHours period (getHours period + 1)
  | daily   => setDate period (getDate period + 1)
  | monthly => setMonth period (getMonth period + 1)
  | yearly  => setFullYear period (getFullYear period + 1)
  end.

(** The test shared by the three [filter] callbacks:
    [date >= period && date < nextPeriod]. *)
Definition inPeriod (period nextPeriod date : Z) : bool :=
  (period <=? date) && (date <? nextPeriod).

(** ** Labels: date-fns [format] for the four patterns in use *)

Definition monthAbbr (month : Z) : string :=
  nth (Z.to_nat month)
      ["Jan"; "Feb"; "Mar"; "Apr"; "May"; "Jun";
       "Jul"; "Aug"; "Sep"; "Oct"; "Nov"; "Dec"]%string ""%string.

Fixpoint zeros (n : nat) : string :=
  match n with
  | O => ""
  | S n' => String "0"%char (zeros n')
  end.

(** [addLeadingZeros(number, targetLength)]: sign, then the decimal digits
    of the magnitude left-padded with zeros. *)
Definition addLeadingZeros (number : Z) (targetLength : nat) : string :=
  let output := pretty (Z.to_N (Z.abs number)) in
  let padded := (zeros (targetLength - String.length output) +:+ output)%string in
  if number <? 0 then ("-" +:+ padded)%string else padded.

(** The [y] token prints years before 1 CE by their magnitude in the
    BCE count. *)
Definition formatYear (signedYear : Z) : string :=
  addLeadingZeros (if 0 <? signedYear then signedYear else 1 - signedYear) 4.

Definition formatString (timeRange : TimeRange) : string :=
  match timeRange with
  | hourly => "HH:00"
  | daily => "MMM dd"
  | monthly => "MMM yyyy"
  | yearly => "yyyy"
  end.

(** [format(date, formatString timeRange)]. *)
Definition format (timeRange : TimeRange) (date : Z) : string :=
  match timeRange with
  | hourly  => (addLeadingZeros (getHours date) 2 +:+ ":00")%string
  | daily   => (monthAbbr (getMonth date) +:+ " " +:+ addLeadingZeros (getDate date) 2)%string
  | monthly => (monthAbbr (getMonth date) +:+ " " +:+ formatYear (getFullYear date))%string
  | yearly  => formatYear (getFullYear date)
  end.
(* ------------------------------------------------------------------ *)
(** * The [productMap] memo                                            *)
(* ------------------------------------------------------------------ *)

(** [new Map(products.map(p => [p.id, p]))]: a later product with the
    same id replaces an earlier one. *)
Definition productMap (products : list Product.t) : gmap string Product.t :=
  fold_left (fun m p => <[Product.id p := p]> m) products ∅.

(** [product?.costPrice ? parseFloat(product.costPrice.toString()) : 0],
    where [product = productMap.get(productId)]. *)
Definition costPriceOf (productMap : gmap string Product.t) (productId : string) : Q :=
  match productMap !! productId with
  | Some product =>
      match Product.costPrice product with
      | Some costPrice => costPrice
      | None => 0%Q
      end
  | None => 0%Q
  end.

(* ------------------------------------------------------------------ *)
(** * The [profitData] memo                                            *)
(* ------------------------------------------------------------------ *)

Definition periodOrders (timeRange : TimeRange) (orders : list Order.t)
    (period : Z) : list Order.t :=
  List.filter (fun o => inPeriod period (nextPeriod timeRange period) (Order.createdAt o))
              orders.

Definition periodReturns (timeRange : TimeRange) (returns : list Return.t)
    (period : Z) : list Return.t :=
  List.filter (fun r => inPeriod period (nextPeriod timeRange period) (Return.createdAt r))
              returns.

Definition periodPurchases (timeRange : TimeRange) (accounts : list Account.t)
    (period : Z) : list Account.t :=
  List.filter (fun a => TransactionType_eqb (Account.transactionType a) purchase
                        && inPeriod period (nextPeriod timeRange period)
                                    (Account.transactionDate a))
              accounts.

(** The [forEach] over [periodPurchases]: the pair is
    ([purchaseProfit], [purchaseLoss]). *)
Definition purchaseStep (st : Q * Q) (acc : Account.t) : Q * Q :=
  let profit := Account.profit acc in
  if Qltb 0 profit then (fst st + profit, snd st)%Q
  else if Qltb profit 0 then (fst st, snd st + Qabs profit)%Q
  else st.

Definition purchaseTotals (purchases : list Account.t) : Q * Q :=
  fold_left purchaseStep purchases (0%Q, 0%Q).

Definition revenueOf (orders : list Order.t) : Q :=
  fold_left (fun sum order => (sum + Order.totalAmount order)%Q) orders 0%Q.

Definition cogsOf (productMap : gmap string Product.t) (orders : list Order.t) : Q :=
  fold_left
    (fun cogs order =>
       fold_left
         (fun cogs item =>
            (cogs + costPriceOf productMap (OrderItem.productId item)
                    * inject_Z (OrderItem.quantity item))%Q)
         (Order.items order) cogs)
    orders 0%Q.

Definition refundAmountOf (returns : list Return.t) : Q :=
  fold_left
    (fun sum ret =>
       (sum + match Return.refundAmount ret with
              | Some refundAmount => refundAmount
              | None => 0
              end)%Q)
    returns 0%Q.

Definition returnedCostOf (productMap : gmap string Product.t) (returns : list Return.t) : Q :=
  fold_left
    (fun returnedCost ret =>
       fold_left
         (fun returnedCost item =>
            (returnedCost + costPriceOf productMap (ReturnItem.productId item)
                            * inject_Z (ReturnItem.quantity item))%Q)
         (Return.items ret) returnedCost)
    returns 0%Q.

(** The local variables of the [periods.map] callback as they stand at its
    [return] statement, before any rounding. *)
Module Locals.
Record t := mk {
  purchaseProfit : Q;
  purchaseLoss : Q;
  salesProfit : Q;
  salesLoss : Q;
  totalProfit : Q;
  totalLoss : Q;
  netRevenue : Q;
  netCost : Q;
  netSalesDifference : Q;
  orderCount : nat;
  returnCount : nat
}.
End Locals.

Definition periodLocals (timeRange : TimeRange) (productMap : gmap string Product.t)
    (orders : list Order.t) (returns : list Return.t) (accounts : list Account.t)
    (period : Z) : Locals.t :=
  let periodOrders := periodOrders timeRange orders period in
  let periodReturns := periodReturns timeRange returns period in
  let periodPurchases := periodPurchases timeRange accounts period in
  let '(purchaseProfit, purchaseLoss) := purchaseTotals periodPurchases in
  let revenue := revenueOf periodOrders in
  let cogs := cogsOf productMap periodOrders in
  let salesRevenue := revenue in
  let salesCost := cogs in
  let salesDifference := (salesRevenue - salesCost)%Q in
  let '(salesProfit, salesLoss) :=
    if Qltb 0 salesDifference then (salesDifference, 0%Q)
    else if Qltb salesDifference 0 then (0%Q, Qabs salesDifference)
    else (0%Q, 0%Q) in
  let refundAmount := refundAmountOf periodReturns in
  let returnedCost := returnedCostOf productMap periodReturns in
  let netRevenue := (salesRevenue - refundAmount)%Q in
  let netCost := (salesCost - returnedCost)%Q in
  let netSalesDifference := (netRevenue - netCost)%Q in
  let '(salesProfit, salesLoss) :=
    if Qltb 0 netSalesDifference then (netSalesDifference, 0%Q)
    else if Qltb netSalesDifference 0 then (0%Q, Qabs netSalesDifference)
    else (salesProfit, salesLoss) in
  let totalProfit := (purchaseProfit + salesProfit)%Q in
  let totalLoss := (purchaseLoss + salesLoss)%Q in
  {| Locals.purchaseProfit := purchaseProfit;
     Locals.purchaseLoss := purchaseLoss;
     Locals.salesProfit := salesProfit;
     Locals.salesLoss := salesLoss;
     Locals.totalProfit := totalProfit;
     Locals.totalLoss := totalLoss;
     Locals.netRevenue := netRevenue;
     Locals.netCost := netCost;
     Locals.netSalesDifference := netSalesDifference;
     Locals.orderCount := List.length periodOrders;
     Locals.returnCount := List.length periodReturns |}.

(** The object literal of the [return] statement. *)
Definition periodRow (timeRange : TimeRange) (productMap : gmap string Product.t)
    (orders : list Order.t) (returns : list Return.t) (accounts : list Account.t)
    (period : Z) : ProfitData.t :=
  let l := periodLocals timeRange productMap orders returns accounts period in
  {| ProfitData.period := format timeRange period;
     ProfitData.purchaseProfit := toFixed2 (Locals.purchaseProfit l);
     ProfitData.purchaseLoss := toFixed2 (Locals.purchaseLoss l);
     ProfitData.salesProfit := toFixed2 (Locals.salesProfit l);
     ProfitData.salesLoss := toFixed2 (Locals.salesLoss l);
     ProfitData.totalProfit := toFixed2 (Locals.totalProfit l);
     ProfitData.totalLoss := toFixed2 (Locals.totalLoss l);
     ProfitData.revenue := toFixed2 (Locals.netRevenue l);
     ProfitData.cost := toFixed2 (Locals.netCost l);
     ProfitData.orders := Z.of_nat (Locals.orderCount l);
     ProfitData.returns := Z.of_nat (Locals.returnCount l) |}.

(** [now] is the value of [new Date()] when the memo runs. *)
Definition profitData (now : Z) (timeRange : TimeRange)
    (productMap : gmap string Product.t)
    (orders : list Order.t) (returns : list Return.t) (accounts : list Account.t)
    : list ProfitData.t :=
  map (periodRow timeRange productMap orders returns accounts) (periods timeRange now).

(* ------------------------------------------------------------------ *)
(** * The [statistics] memo                                            *)
(* ------------------------------------------------------------------ *)

(** [list.reduce((sum, d) => sum + f(d), 0)] *)
Definition sumQ {A : Type} (f : A -> Q) (l : list A) : Q :=
  fold_left (fun sum d => (sum + f d)%Q) l 0%Q.

Definition sumZ {A : Type} (f : A -> Z) (l : list A) : Z :=
  fold_left (fun sum d => sum + f d) l 0.

Definition statistics (profitData : list ProfitData.t) (products : list Product.t)
    : Statistics.t :=
  let totalPurchaseProfit := sumQ ProfitData.purchaseProfit profitData in
  let totalPurchaseLoss := sumQ ProfitData.purchaseLoss profitData in
  let totalSalesProfit := sumQ ProfitData.salesProfit profitData in
  let totalSalesLoss := sumQ ProfitData.salesLoss profitData in
  let totalProfit := (totalPurchaseProfit + totalSalesProfit)%Q in
  let totalLoss := (totalPurchaseLoss + totalSalesLoss)%Q in
  let netProfit := (totalProfit - totalLoss)%Q in
  let totalRevenue := sumQ ProfitData.revenue profitData in
  let totalCost := sumQ ProfitData.cost profitData in
  let profitMargin :=
    if Qltb 0 totalRevenue then ((netProfit / totalRevenue) * 100)%Q else 0%Q in
  let inventoryValue :=
    sumQ (fun p =>
            let costPrice := match Product.costPrice p with
                             | Some costPrice => costPrice
                             | None => 0%Q
                             end in
            (costPrice * inject_Z (Product.stockQuantity p))%Q)
         products in
  let totalOrders := sumZ ProfitData.orders profitData in
  let totalReturns := sumZ ProfitData.returns profitData in
  let returnRate :=
    if 0 <? totalOrders
    then ((inject_Z totalReturns / inject_Z totalOrders) * 100)%Q
    else 0%Q in
  {| Statistics.totalPurchaseProfit := totalPurchaseProfit;
     Statistics.totalPurchaseLoss := totalPurchaseLoss;
     Statistics.totalSalesProfit := totalSalesProfit;
     Statistics.totalSalesLoss := totalSalesLoss;
     Statistics.totalProfit := totalProfit;
     Statistics.totalLoss := totalLoss;
     Statistics.netProfit := netProfit;
     Statistics.totalRevenue := totalRevenue;
     Statistics.totalCost := totalCost;
     Statistics.profitMargin := profitMargin;
     Statistics.inventoryValue := inventoryValue;
     Statistics.totalOrders := totalOrders;
     Statistics.totalReturns := totalReturns;
     Statistics.returnRate := returnRate |}.

(* ------------------------------------------------------------------ *)
(** * Time zones with offset transitions                               *)
(* ------------------------------------------------------------------ *)

(** The [Date] methods above work on a local time value.  The methods of
    this section take UTC time values and a zone: each one converts to
    local time (ECMA-262 LocalTime), computes on the local time value
    exactly as above, and converts back (ECMA-262 UTC).  In a zone with a
    single offset the two agree up to a translation by that offset. *)

Module Zone.
Record t := mk {
  offset : Z;                   (* ms east of UTC before the first transition *)
  transitions : list (Z * Z)    (* (UTC instant, offset from then on), ascending *)
}.
End Zone.

(** Offset in force at a UTC instant. *)
Fixpoint offsetAtUTC (offset : Z) (transitions : list (Z * Z)) (t : Z) : Z :=
  match transitions with
  | [] => offset
  | (instant, offset') :: rest =>
      if t <? instant then offset else offsetAtUTC offset' rest t
  end.

(** Offset used to read a local time value.  A local time that a transition
    skips, and one that it repeats, are both read with the offset in force
    before the transition. *)
Fixpoint offsetAtLocal (offset : Z) (transitions : list (Z * Z)) (tlocal : Z) : Z :=
  match transitions with
  | [] => offset
  | (instant, offset') :: rest =>
      if tlocal - offset <? instant then offset
      else if tlocal - offset' <? instant then offset
      else offsetAtLocal offset' rest tlocal
  end.

Definition LocalTime (z : Zone.t) (t : Z) : Z :=
  t + offsetAtUTC (Zone.offset z) (Zone.transitions z) t.

Definition UTC (z : Zone.t) (tlocal : Z) : Z :=
  tlocal - offsetAtLocal (Zone.offset z) (Zone.transitions z) tlocal.

(** A zone that keeps one offset. *)
Definition fixedOffset (offset : Z) : Zone.t := Zone.mk offset [].

(** America/New_York during 2024: UTC-5, UTC-4 from 2024-03-10T07:00Z,
    UTC-5 again from 2024-11-03T06:00Z. *)
Definition newYork2024 : Zone.t :=
  Zone.mk (-18000000) [(1710054000000, -14400000); (1730613600000, -18000000)].

Module Zoned.

Definition getFullYear (z : Zone.t) (t : Z) : Z := YearFromTime (LocalTime z t).
Definition getMonth (z : Zone.t) (t : Z) : Z := MonthFromTime (LocalTime z t).
Definition getDate (z : Zone.t) (t : Z) : Z := DateFromTime (LocalTime z t).
Definition getHours (z : Zone.t) (t : Z) : Z := HourFromTime (LocalTime z t).

Definition setHours4 (z : Zone.t) (t hour min sec ms : Z) : Z :=
  let tl := LocalTime z t in
  UTC z (MakeDate (Day tl) (MakeTime hour min sec ms)).

Definition setHours (z : Zone.t) (t hour : Z) : Z :=
  let tl := LocalTime z t in
  UTC z (MakeDate (Day tl) (MakeTime hour (MinFromTime tl) (SecFromTime tl) (msFromTime tl))).

Definition setDate (z : Zone.t) (t dt : Z) : Z :=
  let tl := LocalTime z t in
  UTC z (MakeDate (MakeDay (YearFromTime tl) (MonthFromTime tl) dt) (TimeWithinDay tl)).

Definition setMonth (z : Zone.t) (t month : Z) : Z :=
  let tl := LocalTime z t in
  UTC z (MakeDate (MakeDay (YearFromTime tl) month (DateFromTime tl)) (TimeWithinDay tl)).

Definition setMonth2 (z : Zone.t) (t month dt : Z) : Z :=
  let tl := LocalTime z t in
  UTC z (MakeDate (MakeDay (YearFromTime tl) month dt) (TimeWithinDay tl)).

Definition setFullYear (z : Zone.t) (t year : Z) : Z :=
  let tl := LocalTime z t in
  UTC z (MakeDate (MakeDay year (MonthFromTime tl) (DateFromTime tl)) (TimeWithinDay tl)).

Definition setFullYear3 (z : Zone.t) (t year month dt : Z) : Z :=
  let tl := LocalTime z t in
  UTC z (MakeDate (MakeDay year month dt) (TimeWithinDay tl)).

Definition startOfDay (z : Zone.t) (d : Z) : Z := setHours4 z d 0 0 0 0.

Definition startOfMonth (z : Zone.t) (d : Z) : Z := setHours4 z (setDate z d 1) 0 0 0 0.

(** date-fns starts from [new Date(0)]. *)
Definition startOfYear (z : Zone.t) (d : Z) : Z :=
  setHours4 z (setFullYear3 z 0 (getFullYear z d) 0 1) 0 0 0 0.

Definition addDays (z : Zone.t) (d amount : Z) : Z :=
  if amount =? 0 then d else setDate z d (getDate z d + amount).

Definition subDays (z : Zone.t) (d amount : Z) : Z := addDays z d (- amount).

Definition addMonths (z : Zone.t) (d amount : Z) : Z :=
  if amount =? 0 then d
  else
    let dayOfMonth := getDate z d in
    let endOfDesiredMonth := setMonth2 z d (getMonth z d + amount + 1) 0 in
    let daysInMonth := getDate z endOfDesiredMonth in
    if daysInMonth <=? dayOfMonth then endOfDesiredMonth
    else setFullYear3 z d (getFullYear z endOfDesiredMonth)
                          (getMonth z endOfDesiredMonth) dayOfMonth.

Definition subMonths (z : Zone.t) (d amount : Z) : Z := addMonths z d (- amount).

Definition addYears (z : Zone.t) (d amount : Z) : Z := addMonths z d (amount * 12).

Definition subYears (z : Zone.t) (d amount : Z) : Z := addYears z d (- amount).

Definition periods (z : Zone.t) (timeRange : TimeRange) (now : Z) : list Z :=
  match timeRange with
  | hourly  => map (fun i => setHours4 z now (getHours z now - i) 0 0 0) (countdown 23)
  | daily   => map (fun i => subDays z (startOfDay z now) i) (countdown 29)
  | monthly => map (fun i => subMonths z (startOfMonth z now) i) (countdown 11)
  | yearly  => map (fun i => subYears z (startOfYear z now) i) (countdown 4)
  end.

Definition nextPeriod (z : Zone.t) (timeRange : TimeRange) (period : Z) : Z :=
  match timeRange with
  | hourly  => setHours z period (getHours z period + 1)
  | daily   => setDate z period (getDate z period + 1)
  | monthly => setMonth z period (getMonth z period + 1)
  | yearly  => setFullYear z period (getFullYear z period + 1)
  end.

Definition format (z : Zone.t) (timeRange : TimeRange) (date : Z) : string :=
  match timeRange with
  | hourly  => (addLeadingZeros (getHours z date) 2 +:+ ":00")%string
  | daily   =>
      (monthAbbr (getMonth z date) +:+ " " +:+ addLeadingZeros (getDate z date) 2)%string
  | monthly =>
      (monthAbbr (getMonth z date) +:+ " " +:+ formatYear (getFullYear z date))%string
  | yearly  => formatYear (getFullYear z date)
  end.

Definition periodOrders (z : Zone.t) (timeRange : TimeRange) (orders : list Order.t)
    (period : Z) : list Order.t :=
  List.filter (fun o => inPeriod period (nextPeriod z timeRange period) (Order.createdAt o))
              orders.

Definition periodReturns (z : Zone.t) (timeRange : TimeRange) (returns : list Return.t)
    (period : Z) : list Return.t :=
  List.filter (fun r => inPeriod period (nextPeriod z timeRange period) (Return.createdAt r))
              returns.

Definition periodPurchases (z : Zone.t) (timeRange : TimeRange) (accounts : list Account.t)
    (period : Z) : list Account.t :=
  List.filter (fun a => TransactionType_eqb (Account.transactionType a) purchase
                        && inPeriod period (nextPeriod z timeRange period)
                                    (Account.transactionDate a))
              accounts.

(** The labels of one run, the start of its earliest window and the end of
    its latest one. *)
Definition labels (z : Zone.t) (timeRange : TimeRange) (now : Z) : list string :=
  map (format z timeRange) (periods z timeRange now).

Definition spanStart (z : Zone.t) (timeRange : TimeRange) (now : Z) : Z :=
  List.hd 0 (periods z timeRange now).

Definition spanEnd (z : Zone.t) (timeRange : TimeRange) (now : Z) : Z :=
  nextPeriod z timeRange (List.last (periods z timeRange now) 0).

End Zoned.
(* ------------------------------------------------------------------ *)
(** * Auxiliary definitions for the proofs                             *)
(* ------------------------------------------------------------------ *)

(** March-based reading of a civil date: [carry m] is 1 for January and
    February, which belong to the previous March-based year; [mpOf m] is
    the month counted from March; [monthDays mp] is the number of days
    from 1 March to the first of that month; [yearDays y'] is the number
    of days from 0000-03-01 to 1 March of year [y']. *)
Definition carry (m : Z) : Z := if m <=? 2 then 1 else 0.
Definition mpOf (m : Z) : Z := if m <=? 2 then m + 9 else m - 3.
Definition monthOfMp (mp : Z) : Z := if mp <? 10 then mp + 3 else mp - 9.
Definition monthDays (mp : Z) : Z := (153 * mp + 2) / 5.
Definition yearDays (y' : Z) : Z := 365 * y' + y' / 4 - y' / 100 + y' / 400.

(** Day number of the first day of the month with index
    [k = 12 * year + month] (month 0-based). *)
Definition monthStart (k : Z) : Z := days_from_civil (k / 12) (k mod 12 + 1) 1.

(** Month index of a time value. *)
Definition monthIndex (t : Z) : Z := 12 * YearFromTime t + MonthFromTime t.

(** Number of windows generated for a granularity. *)
Definition windowCount (timeRange : TimeRange) : nat :=
  match timeRange with
  | hourly => 24
  | daily => 30
  | monthly => 12
  | yearly => 5
  end.

(** The window boundary [k] units away from the start of the unit that
    contains [now]. *)
Definition boundary (timeRange : TimeRange) (now k : Z) : Z :=
  match timeRange with
  | hourly  => (now / msPerHour + k) * msPerHour
  | daily   => (Day now + k) * msPerDay
  | monthly => monthStart (monthIndex now + k) * msPerDay
  | yearly  => monthStart (12 * (YearFromTime now + k)) * msPerDay
  end.

(** Start of the earliest window and end of the latest one. *)
Definition spanStart (timeRange : TimeRange) (now : Z) : Z :=
  List.hd 0 (periods timeRange now).

Definition spanEnd (timeRange : TimeRange) (now : Z) : Z :=
  nextPeriod timeRange (List.last (periods timeRange now) 0).

(** The labels of one run, in window order. *)
Definition labels (timeRange : TimeRange) (now : Z) : list string :=
  map (format timeRange) (periods timeRange now).

(** Reading a string of decimal digits back: the pair is (value, weight of
    the next digit to the left). *)
Definition digitValue (c : ascii) : N := (N_of_ascii c - 48)%N.

Fixpoint decimalValue (s : string) : N * N :=
  match s with
  | EmptyString => (0%N, 1%N)
  | String c s' =>
      let '(v, w) := decimalValue s' in
      ((digitValue c * w + v)%N, (10 * w)%N)
  end.

(** ** Concrete inputs used in the examples below

    All of them lie in the daily window that starts at time value 0. *)

(** One catalog item X with cost basis 10.00. *)
Definition scenarioProducts : list Product.t :=
  [Product.mk "X" (Some 10%Q) 0].

(** One order of amount 100.00 with one line: item X, quantity 2. *)
Definition scenarioOrder : Order.t :=
  Order.mk 1000 100%Q [OrderItem.mk "X" 2].

(** One return with refund amount 100.00 and one line: item X, quantity 2. *)
Definition scenarioReturn : Return.t :=
  Return.mk 2000 (Some 100%Q) [ReturnItem.mk "X" 2].

(** Two purchase rows of opposite sign. *)
Definition mixedPurchases : list Account.t :=
  [Account.mk 1000 purchase 10%Q; Account.mk 2000 purchase (- 5)%Q].

(** A purchase row and an order of 0.004 each. *)
Definition subCentPurchases : list Account.t :=
  [Account.mk 1000 purchase (1 # 250)%Q].

Definition subCentOrders : list Order.t :=
  [Order.mk 1000 (1 # 250)%Q []].

(** A return refunding 0.004 against no order. *)
Definition subCentReturns : list Return.t :=
  [Return.mk 1000 (Some (1 # 250)%Q) []].

(** [productMap.get(productId)] yields no usable cost basis. *)
Definition noCostBasis (productMap : gmap string Product.t) (productId : string) : Prop :=
  match productMap !! productId with
  | Some product => Product.costPrice product = None
  | None => True
  end.

(** ** Further auxiliary definitions *)

(** The instant lies inside the span of the run. *)
Definition inSpan (timeRange : TimeRange) (now t : Z) : bool :=
  inPeriod (spanStart timeRange now) (spanEnd timeRange now) t.

(** ** A run across a change of UTC offset

    New York, hourly view.  The first run is made on 2024-03-10 at 20:30
    local time, the day the clocks go from 02:00 to 03:00; the order is
    placed at 03:30 local time that morning.  The second run is made on
    2024-11-03 at 20:30 local time, the day the clocks go back from 02:00
    to 01:00; the window is the one that starts at 01:00 daylight time. *)
Definition springForwardNow : Z := 1710117000000.

Definition springForwardOrder : Order.t :=
  Order.mk 1710055800000 100%Q [OrderItem.mk "X" 2].

Definition fallBackNow : Z := 1730683800000.

Definition fallBackWindow : Z := 1730610000000.

(** A yearly run in year 3 with UTC as the zone: 0003-07-01T00:00Z. *)
Definition yearThreeNow : Z := -62056886400000.

(** ** Proof automation *)

(** [lia] is extended to division and remainder by constants. *)
Ltac Zify.zify_post_hook ::= Z.to_euclidean_division_equations.

(** Case analysis on every integer comparison of the goal. *)
Ltac split_tests :=
  repeat match goal with
  | |- context [?a <=? ?b] => destruct (Z.leb_spec a b); try lia
  | |- context [?a <? ?b] => destruct (Z.ltb_spec a b); try lia
  | |- context [?a =? ?b] => destruct (Z.eqb_spec a b); try lia
  end.

(** Conversions in a zone with one offset reduce to a translation. *)
Ltac fixed_zone :=
  unfold LocalTime, UTC, fixedOffset;
  cbn [offsetAtUTC offsetAtLocal Zone.offset Zone.transitions];
  cbv zeta; reflexivity.
(* ================================================================== *)
(** * Proofs                                                           *)
(* ================================================================== *)

(** ** The civil calendar *)

Lemma mp_cases (doy : Z) : 0 <= doy <= 365 ->
  let mp := (5 * doy + 2) / 153 in
  0 <= mp <= 11 /\ (153 * mp + 2) / 5 <= doy < (153 * (mp + 1) + 2) / 5.
Proof.
  intros H mp.
  assert (Hmp : 153 * mp <= 5 * doy + 2 < 153 * mp + 153) by (subst mp; lia).
  clearbody mp.
  assert (Hc : mp = 0 \/ mp = 1 \/ mp = 2 \/ mp = 3 \/ mp = 4 \/ mp = 5 \/ mp = 6
               \/ mp = 7 \/ mp = 8 \/ mp = 9 \/ mp = 10 \/ mp = 11) by lia.
  repeat (destruct Hc as [-> | Hc]); try subst mp; lia.
Qed.



Lemma monthLength_mp y mp :
  0 <= mp <= 10 ->
  monthLength y (monthOfMp mp) = (153 * (mp + 1) + 2) / 5 - (153 * mp + 2) / 5.
Proof.
  intros H.
  assert (Hc : mp = 0 \/ mp = 1 \/ mp = 2 \/ mp = 3 \/ mp = 4 \/ mp = 5 \/ mp = 6
               \/ mp = 7 \/ mp = 8 \/ mp = 9 \/ mp = 10) by lia.
  repeat (destruct Hc as [-> | Hc]); try subst mp; reflexivity.
Qed.

Lemma dfc_cfd z :
  let '(y, m, d) := civil_from_days z in
  1 <= m <= 12 /\ 1 <= d <= monthLength y m /\ days_from_civil y m d = z.
Proof.
  unfold civil_from_days.
  set (n := z + 719468).
  set (era := n / 146097). set (doe := n mod 146097).
  set (c := Z.min (doe / 36524) 3).
  set (doc := doe - 36524 * c).
  set (q := doc / 1461). set (doq := doc mod 1461).
  set (yq := Z.min (doq / 365) 3).
  set (doy := doq - 365 * yq).
  set (y' := 400 * era + 100 * c + 4 * q + yq).
  set (mp := (5 * doy + 2) / 153).
  fold (monthOfMp mp).
  assert (Hn : n = 146097 * era + doe /\ 0 <= doe < 146097) by (subst era doe; lia).
  assert (Hc : 0 <= c <= 3 /\ 0 <= doc /\ (c < 3 -> doc < 36524) /\ doc <= 36524) by (subst c doc; lia).
  assert (Hq : doc = 1461 * q + doq /\ 0 <= doq < 1461 /\ 0 <= q <= 24) by (subst q doq; lia).
  assert (Hyq : 0 <= yq <= 3 /\ 0 <= doy /\ (yq < 3 -> doy < 365) /\ doy <= 365) by (subst yq doy; lia).
  assert (Hmp : 0 <= mp <= 11 /\ (153 * mp + 2) / 5 <= doy < (153 * (mp + 1) + 2) / 5)
    by (apply mp_cases; lia).
  assert (Hy4 : y' / 4 = 100 * era + 25 * c + q) by (subst y'; lia).
  assert (Hy100 : y' / 100 = 4 * era + c) by (subst y'; lia).
  assert (Hy400 : y' / 400 = era) by (subst y'; lia).
  assert (Hleap : doy = 365 -> isLeap (y' + 1) = true).
  { intros Hd. unfold isLeap.
    assert (yq = 3) by lia.
    assert (E4 : (y' + 1) mod 4 = 0) by (subst y'; lia).
    rewrite E4. simpl.
    destruct (Z.eq_dec q 24) as [Hq24|Hq24].
    - assert (c = 3) by lia.
      assert (E400 : (y' + 1) mod 400 = 0) by (subst y'; lia).
      rewrite E400. apply orb_true_r.
    - assert (E100 : (y' + 1) mod 100 <> 0) by (subst y'; lia).
      apply Z.eqb_neq in E100. rewrite E100. reflexivity. }
  assert (Hz : z = 365 * y' + y' / 4 - y' / 100 + y' / 400 + doy - 719468).
  { rewrite Hy4, Hy100, Hy400. subst y' doy doc n. lia. }
  clearbody mp doy y'. clear - Hmp Hyq Hleap Hz.
  destruct (Z.eq_dec mp 11) as [->|Hne].
  - change (monthOfMp 11) with 2. cbv beta iota.
    change (2 <=? 2) with true. cbv iota.
    split; [lia|]. split.
    + change (monthLength (y' + 1) 2) with (if isLeap (y' + 1) then 29 else 28).
      destruct (Z.eq_dec doy 365) as [E|E].
      * rewrite (Hleap E). lia.
      * destruct (isLeap (y' + 1)); lia.
    + unfold days_from_civil. change (2 <=? 2) with true. cbv iota. lia.
  - pose proof (monthLength_mp (if monthOfMp mp <=? 2 then y' + 1 else y') mp ltac:(lia)) as HL.
    unfold monthOfMp in *.
    destruct (Z.ltb_spec mp 10).
    + destruct (Z.leb_spec (mp + 3) 2); [lia|].
      split; [lia|]. split; [lia|].
      unfold days_from_civil. destruct (Z.leb_spec (mp + 3) 2); [lia|]. lia.
    + assert (mp = 10) by lia. subst mp.
      change (10 - 9 <=? 2) with true in *. cbv iota in *.
      split; [lia|]. split; [lia|].
      unfold days_from_civil. change (10 - 9 <=? 2) with true. cbv iota. lia.
Qed.


Lemma yearDays_mono a b : a <= b -> yearDays a <= yearDays b.
Proof. unfold yearDays. intros H. lia. Qed.

Lemma yearDays_succ a : yearDays (a + 1) = yearDays a + (if isLeap (a + 1) then 366 else 365).
Proof.
  unfold yearDays, isLeap.
  destruct (Z.eqb_spec ((a + 1) mod 4) 0); destruct (Z.eqb_spec ((a + 1) mod 100) 0);
    destruct (Z.eqb_spec ((a + 1) mod 400) 0); cbn [andb orb negb]; lia.
Qed.


Lemma dfc_split y m d :
  days_from_civil y m d = yearDays (y - carry m) + monthDays (mpOf m) + d - 1 - 719468.
Proof.
  unfold days_from_civil, yearDays, monthDays, carry, mpOf.
  destruct (m <=? 2); [reflexivity|]. replace (y - 0) with y by lia. reflexivity.
Qed.

Lemma month_cases m : 1 <= m <= 12 ->
  m = 1 \/ m = 2 \/ m = 3 \/ m = 4 \/ m = 5 \/ m = 6 \/ m = 7 \/ m = 8 \/ m = 9
  \/ m = 10 \/ m = 11 \/ m = 12.
Proof. lia. Qed.

Lemma valid_doy y m d :
  1 <= m <= 12 -> 1 <= d <= monthLength y m ->
  0 <= mpOf m <= 11 /\ monthOfMp (mpOf m) = m /\
  monthDays (mpOf m) <= monthDays (mpOf m) + d - 1 < monthDays (mpOf m + 1) /\
  monthDays (mpOf m) + d - 1 < (if isLeap (y - carry m + 1) then 366 else 365).
Proof.
  intros Hm Hd.
  destruct (Z.eq_dec m 2) as [->|Hne].
  - change (mpOf 2) with 11. change (carry 2) with 1.
    change (monthLength y 2) with (if isLeap y then 29 else 28) in Hd.
    replace (y - 1 + 1) with y by lia.
    change (monthOfMp 11) with 2. unfold monthDays.
    destruct (isLeap y); lia.
  - assert (Hl : monthLength y m = monthDays (mpOf m + 1) - monthDays (mpOf m)
                 /\ 0 <= mpOf m <= 10 /\ monthOfMp (mpOf m) = m).
    { apply month_cases in Hm.
      repeat (destruct Hm as [-> | Hm]); try subst m; try lia; repeat split; vm_compute; congruence. }
    destruct Hl as (Hl & Hb & Hmo).
    rewrite Hl in Hd. clear Hl.
    split; [lia|]. split; [exact Hmo|]. split; [lia|].
    assert (monthDays (mpOf m + 1) <= 337) by (unfold monthDays; lia).
    destruct (isLeap _); lia.
Qed.

Lemma monthDays_mono a b : a <= b -> monthDays a <= monthDays b.
Proof. unfold monthDays. lia. Qed.

Lemma dfc_inj y1 m1 d1 y2 m2 d2 :
  1 <= m1 <= 12 -> 1 <= d1 <= monthLength y1 m1 ->
  1 <= m2 <= 12 -> 1 <= d2 <= monthLength y2 m2 ->
  days_from_civil y1 m1 d1 = days_from_civil y2 m2 d2 ->
  (y1, m1, d1) = (y2, m2, d2).
Proof.
  intros Hm1 Hd1 Hm2 Hd2. rewrite !dfc_split. intros E.
  destruct (valid_doy y1 m1 d1 Hm1 Hd1) as (Hb1 & Ho1 & Hr1 & Hy1).
  destruct (valid_doy y2 m2 d2 Hm2 Hd2) as (Hb2 & Ho2 & Hr2 & Hy2).
  set (Y1 := y1 - carry m1) in *. set (Y2 := y2 - carry m2) in *.
  set (p1 := mpOf m1) in *. set (p2 := mpOf m2) in *.
  assert (HY : Y1 = Y2).
  { pose proof (yearDays_succ Y1) as S1. pose proof (yearDays_succ Y2) as S2.
    destruct (Z.lt_trichotomy Y1 Y2) as [L|[L|L]]; [|exact L|].
    - pose proof (yearDays_mono (Y1 + 1) Y2 ltac:(lia)).
      assert (0 <= monthDays p2) by (unfold monthDays; lia). lia.
    - pose proof (yearDays_mono (Y2 + 1) Y1 ltac:(lia)).
      assert (0 <= monthDays p1) by (unfold monthDays; lia). lia. }
  rewrite HY in E.
  assert (Hp : p1 = p2).
  { destruct (Z.lt_trichotomy p1 p2) as [L|[L|L]]; [|exact L|].
    - pose proof (monthDays_mono (p1 + 1) p2 ltac:(lia)). lia.
    - pose proof (monthDays_mono (p2 + 1) p1 ltac:(lia)). lia. }
  assert (Hm : m1 = m2) by congruence.
  assert (Hd : d1 = d2) by (rewrite Hp in E; lia).
  assert (Hy : y1 = y2) by (unfold Y1, Y2 in HY; rewrite Hm in HY; lia).
  congruence.
Qed.

Lemma cfd_dfc y m d :
  1 <= m <= 12 -> 1 <= d <= monthLength y m ->
  civil_from_days (days_from_civil y m d) = (y, m, d).
Proof.
  intros Hm Hd.
  pose proof (dfc_cfd (days_from_civil y m d)) as H.
  destruct (civil_from_days (days_from_civil y m d)) as [[y2 m2] d2].
  destruct H as (Hm2 & Hd2 & E).
  apply dfc_inj; assumption.
Qed.


Lemma monthLength_feb y : monthLength y 2 = if isLeap y then 29 else 28.
Proof. reflexivity. Qed.

Lemma monthLength_other y m :
  1 <= m <= 12 -> m <> 2 ->
  monthLength y m = monthDays (mpOf m + 1) - monthDays (mpOf m).
Proof.
  intros Hm Hne. apply month_cases in Hm.
  repeat (destruct Hm as [-> | Hm]); try subst m; try lia; reflexivity.
Qed.

Lemma monthStart_succ k :
  monthStart (k + 1) = monthStart k + monthLength (k / 12) (k mod 12 + 1).
Proof.
  unfold monthStart. rewrite !dfc_split.
  assert (Hc : 0 <= k mod 12 < 12) by lia.
  destruct (Z.eq_dec (k mod 12) 11) as [E11|N11].
  - assert ((k + 1) / 12 = k / 12 + 1 /\ (k + 1) mod 12 = 0) as [-> ->] by lia.
    rewrite monthLength_other by lia. rewrite E11.
    unfold carry, mpOf, monthDays, yearDays. split_tests.
  - assert ((k + 1) / 12 = k / 12 /\ (k + 1) mod 12 = k mod 12 + 1) as [-> ->] by lia.
    set (y := k / 12). set (m0 := k mod 12) in *. clearbody y m0.
    destruct (Z.eq_dec m0 1) as [->|N1].
    + rewrite monthLength_feb.
      pose proof (yearDays_succ (y - 1)) as S. replace (y - 1 + 1) with y in S by lia.
      unfold carry, mpOf, monthDays. split_tests.
      replace (y - 0) with y by lia. destruct (isLeap y); lia.
    + rewrite monthLength_other by lia.
      unfold carry, mpOf, monthDays, yearDays. split_tests.
Qed.

(** ** Time values and [Date] mutators *)

Lemma Day_MakeDate day time :
  0 <= time < msPerDay -> Day (MakeDate day time) = day.
Proof. unfold Day, MakeDate, msPerDay. lia. Qed.

Lemma TimeWithinDay_MakeDate day time :
  0 <= time < msPerDay -> TimeWithinDay (MakeDate day time) = time.
Proof. unfold TimeWithinDay, MakeDate, msPerDay. lia. Qed.

Lemma TimeWithinDay_bound t : 0 <= TimeWithinDay t < msPerDay.
Proof. unfold TimeWithinDay, msPerDay. lia. Qed.

Lemma Day_TimeWithinDay t : t = MakeDate (Day t) (TimeWithinDay t).
Proof. unfold MakeDate, Day, TimeWithinDay, msPerDay. lia. Qed.

Lemma MakeDay_monthStart year month dt :
  MakeDay year month dt = monthStart (12 * year + month) + dt - 1.
Proof.
  unfold MakeDay, monthStart.
  replace ((12 * year + month) / 12) with (year + month / 12) by lia.
  replace ((12 * year + month) mod 12) with (month mod 12) by lia.
  reflexivity.
Qed.

Lemma monthLength_bound y m : 28 <= monthLength y m <= 31.
Proof.
  unfold monthLength.
  destruct (m =? 2); [destruct (isLeap y); lia|].
  destruct ((m =? 4) || (m =? 6) || (m =? 9) || (m =? 11))%bool; lia.
Qed.

Lemma monthStart_day k d :
  monthStart k + d - 1 = days_from_civil (k / 12) (k mod 12 + 1) d.
Proof. unfold monthStart, days_from_civil. lia. Qed.

Lemma civil_in_month k d :
  1 <= d <= monthLength (k / 12) (k mod 12 + 1) ->
  civil_from_days (monthStart k + d - 1) = (k / 12, k mod 12 + 1, d).
Proof.
  intros Hd. rewrite monthStart_day. apply cfd_dfc; [lia | exact Hd].
Qed.

(** The calendar fields of any time value are those of a valid date, and
    they determine its day number. *)
Lemma fields_of_time t :
  0 <= MonthFromTime t <= 11 /\
  1 <= DateFromTime t <= monthLength (YearFromTime t) (MonthFromTime t + 1) /\
  monthIndex t / 12 = YearFromTime t /\
  monthIndex t mod 12 = MonthFromTime t /\
  Day t = monthStart (monthIndex t) + DateFromTime t - 1.
Proof.
  unfold monthIndex, MonthFromTime, DateFromTime, YearFromTime.
  pose proof (dfc_cfd (Day t)) as H.
  destruct (civil_from_days (Day t)) as [[y m] d]. cbn [fst snd].
  destruct H as (Hm & Hd & E).
  replace (m - 1 + 1) with m by lia.
  assert (E1 : (12 * y + (m - 1)) / 12 = y) by lia.
  assert (E2 : (12 * y + (m - 1)) mod 12 = m - 1) by lia.
  repeat split; try lia.
  rewrite monthStart_day, E1, E2. replace (m - 1 + 1) with m by lia. congruence.
Qed.

(** Conversely, the fields of a time value built from a month index, a
    day of that month and a time of day. *)
Lemma fields_of_month_day k d tod :
  1 <= d <= monthLength (k / 12) (k mod 12 + 1) -> 0 <= tod < msPerDay ->
  let t := MakeDate (monthStart k + d - 1) tod in
  YearFromTime t = k / 12 /\ MonthFromTime t = k mod 12 /\
  DateFromTime t = d /\ monthIndex t = k /\ TimeWithinDay t = tod.
Proof.
  intros Hd Ht t.
  unfold monthIndex, YearFromTime, MonthFromTime, DateFromTime. subst t.
  rewrite Day_MakeDate by exact Ht. rewrite civil_in_month by exact Hd.
  cbn [fst snd]. rewrite TimeWithinDay_MakeDate by exact Ht.
  repeat split; lia.
Qed.

Lemma fields_of_monthStart k :
  let t := monthStart k * msPerDay in
  YearFromTime t = k / 12 /\ MonthFromTime t = k mod 12 /\
  DateFromTime t = 1 /\ monthIndex t = k /\ TimeWithinDay t = 0.
Proof.
  pose proof (monthLength_bound (k / 12) (k mod 12 + 1)) as Hb.
  pose proof (fields_of_month_day k 1 0 ltac:(lia) ltac:(unfold msPerDay; lia)) as H.
  cbv zeta in H. unfold MakeDate in H.
  replace ((monthStart k + 1 - 1) * msPerDay + 0) with (monthStart k * msPerDay) in H by lia.
  exact H.
Qed.

Lemma setHours_succ p : setHours p (getHours p + 1) = p + msPerHour.
Proof.
  unfold setHours, getHours, MakeDate, MakeTime, Day, HourFromTime, MinFromTime,
    SecFromTime, msFromTime, msPerDay, msPerHour, msPerMinute, msPerSecond.
  lia.
Qed.

Lemma setHours4_floor now i :
  setHours4 now (getHours now - i) 0 0 0 = (now / msPerHour - i) * msPerHour.
Proof.
  unfold setHours4, getHours, MakeDate, MakeTime, Day, HourFromTime,
    msPerDay, msPerHour, msPerMinute, msPerSecond.
  lia.
Qed.

Lemma setDate_add t k : setDate t (getDate t + k) = t + k * msPerDay.
Proof.
  unfold setDate, getDate. rewrite MakeDay_monthStart.
  destruct (fields_of_time t) as (_ & _ & _ & _ & E).
  fold (monthIndex t).
  rewrite (Day_TimeWithinDay t) at 4. unfold MakeDate. rewrite E. lia.
Qed.

Lemma startOfDay_eq t : startOfDay t = Day t * msPerDay.
Proof. unfold startOfDay, setHours4, MakeDate, MakeTime. lia. Qed.

Lemma subDays_startOfDay now i :
  subDays (startOfDay now) i = (Day now - i) * msPerDay.
Proof.
  unfold subDays, addDays. rewrite setDate_add, startOfDay_eq.
  destruct (Z.eqb_spec (- i) 0); lia.
Qed.

Lemma startOfMonth_eq now : startOfMonth now = monthStart (monthIndex now) * msPerDay.
Proof.
  unfold startOfMonth, setHours4, setDate. rewrite MakeDay_monthStart.
  fold (monthIndex now).
  rewrite Day_MakeDate by apply TimeWithinDay_bound.
  unfold MakeDate, MakeTime. lia.
Qed.

Lemma startOfYear_eq now : startOfYear now = monthStart (12 * YearFromTime now) * msPerDay.
Proof.
  unfold startOfYear, setHours4, setFullYear3, getFullYear. rewrite MakeDay_monthStart.
  rewrite Day_MakeDate by apply TimeWithinDay_bound.
  unfold MakeDate, MakeTime. replace (12 * YearFromTime now + 0) with (12 * YearFromTime now) by lia.
  lia.
Qed.

Lemma addMonths_monthStart k a :
  addMonths (monthStart k * msPerDay) a = monthStart (k + a) * msPerDay.
Proof.
  unfold addMonths.
  destruct (Z.eqb_spec a 0) as [->|Hne]; [f_equal; f_equal; lia|].
  destruct (fields_of_monthStart k) as (Hy & Hm & Hd & _ & Ht). cbv zeta in *.
  unfold getDate, getMonth, getFullYear, setMonth2, setFullYear3.
  rewrite Hy, Hm, Hd, Ht, !MakeDay_monthStart.
  replace (12 * (k / 12) + (k mod 12 + a + 1)) with (k + a + 1) by lia.
  rewrite monthStart_succ.
  pose proof (monthLength_bound ((k + a) / 12) ((k + a) mod 12 + 1)) as Hb.
  set (len := monthLength ((k + a) / 12) ((k + a) mod 12 + 1)) in *.
  replace (monthStart (k + a) + len + 0 - 1) with (monthStart (k + a) + len - 1) by lia.
  destruct (fields_of_month_day (k + a) len 0 ltac:(fold len; lia) ltac:(unfold msPerDay; lia))
    as (Hy' & Hm' & Hd' & _ & _).
  rewrite Hy', Hm', Hd'.
  destruct (Z.leb_spec len 1); [lia|].
  replace (12 * ((k + a) / 12) + (k + a) mod 12) with (k + a) by lia.
  unfold MakeDate. lia.
Qed.

Lemma subMonths_startOfMonth now i :
  subMonths (startOfMonth now) i = monthStart (monthIndex now - i) * msPerDay.
Proof. unfold subMonths. rewrite startOfMonth_eq, addMonths_monthStart. f_equal. Qed.

Lemma subYears_startOfYear now i :
  subYears (startOfYear now) i = monthStart (12 * (YearFromTime now - i)) * msPerDay.
Proof.
  unfold subYears, addYears. rewrite startOfYear_eq, addMonths_monthStart.
  f_equal. f_equal. lia.
Qed.

Lemma setMonth_succ_monthStart k :
  let p := monthStart k * msPerDay in
  setMonth p (getMonth p + 1) = monthStart (k + 1) * msPerDay.
Proof.
  destruct (fields_of_monthStart k) as (Hy & Hm & Hd & _ & Ht). cbv zeta in *.
  unfold setMonth, getMonth. rewrite Hy, Hm, Hd, Ht, MakeDay_monthStart.
  replace (12 * (k / 12) + (k mod 12 + 1)) with (k + 1) by lia.
  unfold MakeDate. lia.
Qed.

Lemma setFullYear_succ_yearStart y :
  let p := monthStart (12 * y) * msPerDay in
  setFullYear p (getFullYear p + 1) = monthStart (12 * (y + 1)) * msPerDay.
Proof.
  destruct (fields_of_monthStart (12 * y)) as (Hy & Hm & Hd & _ & Ht). cbv zeta in *.
  unfold setFullYear, getFullYear. rewrite Hy, Hm, Hd, Ht, MakeDay_monthStart.
  replace (12 * (12 * y / 12 + 1) + 12 * y mod 12) with (12 * (y + 1)) by lia.
  unfold MakeDate. lia.
Qed.

(** ** The generated windows *)

Lemma lookup_map {A B} (f : A -> B) (l : list A) (i : nat) :
  map f l !! i = match l !! i with Some x => Some (f x) | None => None end.
Proof.
  revert i. induction l as [|x l IH]; intros [|i]; simpl; try reflexivity. apply IH.
Qed.

Lemma countdown_length n : length (countdown n) = S n.
Proof. induction n as [|n IH]; simpl; [reflexivity | now rewrite IH]. Qed.

Lemma countdown_lookup n i :
  (i <= n)%nat -> countdown n !! i = Some (Z.of_nat n - Z.of_nat i).
Proof.
  revert i. induction n as [|n IH]; intros i Hi.
  - assert (i = O) by lia. subst i. reflexivity.
  - destruct i as [|i].
    + change (countdown (S n) !! 0%nat) with (Some (Z.of_nat (S n))).
      f_equal; lia.
    + change (countdown (S n) !! S i) with (countdown n !! i).
      rewrite IH by lia. f_equal. lia.
Qed.

Lemma countdown_In n i : In i (countdown n) <-> 0 <= i <= Z.of_nat n.
Proof.
  induction n as [|n IH].
  - simpl. lia.
  - change (countdown (S n)) with (Z.of_nat (S n) :: countdown n).
    simpl In. rewrite IH. lia.
Qed.

Lemma countdown_NoDup n : List.NoDup (countdown n).
Proof.
  induction n as [|n IH].
  - constructor; [simpl; tauto | constructor].
  - change (countdown (S n)) with (Z.of_nat (S n) :: countdown n).
    constructor; [rewrite countdown_In; lia | exact IH].
Qed.

Lemma periods_boundary timeRange now :
  periods timeRange now
  = map (fun i => boundary timeRange now (- i)) (countdown (windowCount timeRange - 1)).
Proof.
  destruct timeRange; unfold periods, boundary, windowCount; apply map_ext; intros i.
  - rewrite setHours4_floor. f_equal.
  - rewrite subDays_startOfDay. f_equal.
  - rewrite subMonths_startOfMonth. f_equal.
  - rewrite subYears_startOfYear. f_equal.
Qed.

Lemma periods_length timeRange now :
  length (periods timeRange now) = windowCount timeRange.
Proof.
  rewrite periods_boundary, length_map, countdown_length.
  destruct timeRange; reflexivity.
Qed.

Lemma periods_lookup timeRange now i :
  (i < windowCount timeRange)%nat ->
  periods timeRange now !! i
  = Some (boundary timeRange now (Z.of_nat i + 1 - Z.of_nat (windowCount timeRange))).
Proof.
  intros Hi. rewrite periods_boundary, lookup_map, countdown_lookup by lia.
  f_equal. f_equal. lia.
Qed.

Lemma periods_lookup_inv timeRange now i p :
  periods timeRange now !! i = Some p ->
  (i < windowCount timeRange)%nat /\
  p = boundary timeRange now (Z.of_nat i + 1 - Z.of_nat (windowCount timeRange)).
Proof.
  intros H.
  assert (Hi : (i < windowCount timeRange)%nat).
  { rewrite <- (periods_length timeRange now). eapply lookup_lt_Some; exact H. }
  split; [exact Hi|]. rewrite periods_lookup in H by exact Hi. congruence.
Qed.

Lemma periods_In timeRange now p :
  In p (periods timeRange now) ->
  exists k, - Z.of_nat (windowCount timeRange) < k <= 0 /\ p = boundary timeRange now k.
Proof.
  rewrite periods_boundary, in_map_iff. intros (i & <- & Hi).
  apply countdown_In in Hi. exists (- i). split; [|reflexivity].
  destruct timeRange; simpl in *; lia.
Qed.

Lemma nextPeriod_boundary timeRange now k :
  nextPeriod timeRange (boundary timeRange now k) = boundary timeRange now (k + 1).
Proof.
  destruct timeRange; unfold nextPeriod, boundary.
  - rewrite setHours_succ. unfold msPerHour. lia.
  - rewrite setDate_add. lia.
  - rewrite setMonth_succ_monthStart. f_equal. f_equal. lia.
  - rewrite setFullYear_succ_yearStart. f_equal. f_equal. lia.
Qed.

Lemma monthStart_lt k : monthStart k < monthStart (k + 1).
Proof.
  rewrite monthStart_succ.
  pose proof (monthLength_bound (k / 12) (k mod 12 + 1)). lia.
Qed.

Lemma monthStart_mono k1 k2 : k1 <= k2 -> monthStart k1 <= monthStart k2.
Proof.
  intros H. replace k2 with (k1 + Z.of_nat (Z.to_nat (k2 - k1))) by lia.
  induction (Z.to_nat (k2 - k1)) as [|n IH].
  - replace (k1 + Z.of_nat 0) with k1 by lia. lia.
  - pose proof (monthStart_lt (k1 + Z.of_nat n)).
    replace (k1 + Z.of_nat (S n)) with (k1 + Z.of_nat n + 1) by lia. lia.
Qed.

Lemma boundary_lt timeRange now k :
  boundary timeRange now k < boundary timeRange now (k + 1).
Proof.
  destruct timeRange; unfold boundary.
  - unfold msPerHour. lia.
  - unfold msPerDay. lia.
  - pose proof (monthStart_lt (monthIndex now + k)).
    replace (monthIndex now + (k + 1)) with (monthIndex now + k + 1) by lia.
    unfold msPerDay. lia.
  - pose proof (monthStart_lt (12 * (YearFromTime now + k))).
    pose proof (monthStart_mono (12 * (YearFromTime now + k) + 1)
                                (12 * (YearFromTime now + (k + 1))) ltac:(lia)).
    unfold msPerDay. lia.
Qed.

Lemma boundary_mono timeRange now k1 k2 :
  k1 <= k2 -> boundary timeRange now k1 <= boundary timeRange now k2.
Proof.
  intros H. replace k2 with (k1 + Z.of_nat (Z.to_nat (k2 - k1))) by lia.
  induction (Z.to_nat (k2 - k1)) as [|n IH].
  - replace (k1 + Z.of_nat 0) with k1 by lia. lia.
  - pose proof (boundary_lt timeRange now (k1 + Z.of_nat n)).
    replace (k1 + Z.of_nat (S n)) with (k1 + Z.of_nat n + 1) by lia. lia.
Qed.

Lemma boundary_strict timeRange now k1 k2 :
  k1 < k2 -> boundary timeRange now k1 < boundary timeRange now k2.
Proof.
  intros H. pose proof (boundary_lt timeRange now k1).
  pose proof (boundary_mono timeRange now (k1 + 1) k2 ltac:(lia)). lia.
Qed.

(** The unit that contains [now] is the one between boundaries 0 and 1. *)
Lemma boundary_now timeRange now :
  boundary timeRange now 0 <= now < boundary timeRange now 1.
Proof.
  destruct timeRange; unfold boundary.
  - unfold msPerHour. lia.
  - unfold Day, msPerDay. lia.
  - destruct (fields_of_time now) as (Hm & Hd & Hy & Hmo & E).
    replace (monthIndex now + 0) with (monthIndex now) by lia.
    rewrite monthStart_succ, Hy, Hmo.
    unfold Day, msPerDay in *. lia.
  - destruct (fields_of_time now) as (Hm & Hd & Hy & Hmo & E).
    pose proof (monthStart_mono (12 * (YearFromTime now + 0)) (monthIndex now)
                  ltac:(unfold monthIndex; lia)).
    pose proof (monthStart_mono (monthIndex now + 1) (12 * (YearFromTime now + 1))
                  ltac:(unfold monthIndex; lia)).
    rewrite monthStart_succ, Hy, Hmo in *.
    unfold Day, msPerDay in *. lia.
Qed.

Lemma inPeriod_iff period nextP date :
  inPeriod period nextP date = true <-> period <= date < nextP.
Proof. unfold inPeriod. rewrite andb_true_iff, Z.leb_le, Z.ltb_lt. tauto. Qed.

Lemma spanStart_eq timeRange now :
  spanStart timeRange now
  = boundary timeRange now (1 - Z.of_nat (windowCount timeRange)).
Proof.
  unfold spanStart.
  pose proof (periods_lookup timeRange now 0 ltac:(destruct timeRange; simpl; lia)) as H.
  destruct (periods timeRange now) as [|p l]; [discriminate|].
  simpl in *. injection H as ->. f_equal.
Qed.

Lemma last_lookup_default (l : list Z) (d : Z) n x :
  length l = S n -> l !! n = Some x -> List.last l d = x.
Proof.
  revert n. induction l as [|a l IH]; intros n Hlen Hx; [discriminate|].
  destruct l as [|b l].
  - simpl in Hlen. assert (n = O) by lia. subst n. simpl in Hx. simpl. congruence.
  - destruct n as [|n]; [simpl in Hlen; lia|].
    change (List.last (a :: b :: l) d) with (List.last (b :: l) d).
    apply (IH n); [simpl in *; lia | exact Hx].
Qed.

Lemma periods_last timeRange now :
  List.last (periods timeRange now) 0 = boundary timeRange now 0.
Proof.
  apply (last_lookup_default _ _ (windowCount timeRange - 1)).
  - rewrite periods_length. destruct timeRange; reflexivity.
  - rewrite periods_lookup by (destruct timeRange; simpl; lia).
    f_equal. f_equal. destruct timeRange; simpl; lia.
Qed.

Lemma spanEnd_eq timeRange now : spanEnd timeRange now = boundary timeRange now 1.
Proof. unfold spanEnd. rewrite periods_last, nextPeriod_boundary. f_equal. Qed.

(** A time inside the span lies between two consecutive boundaries. *)
Lemma boundary_cover timeRange now (n : nat) t :
  boundary timeRange now (- Z.of_nat n) <= t < boundary timeRange now 1 ->
  exists k, - Z.of_nat n <= k <= 0 /\
            boundary timeRange now k <= t < boundary timeRange now (k + 1).
Proof.
  induction n as [|n IH]; intros H.
  - exists 0. split; [lia|]. simpl in H. exact H.
  - destruct (Z_lt_le_dec t (boundary timeRange now (- Z.of_nat n))) as [Hlt|Hge].
    + exists (- Z.of_nat (S n)). split; [lia|].
      replace (- Z.of_nat (S n) + 1) with (- Z.of_nat n) by lia. lia.
    + destruct IH as (k & Hk & Hin); [lia|].
      exists k. split; [lia | exact Hin].
Qed.

Lemma boundary_unique timeRange now k1 k2 t :
  boundary timeRange now k1 <= t < boundary timeRange now (k1 + 1) ->
  boundary timeRange now k2 <= t < boundary timeRange now (k2 + 1) ->
  k1 = k2.
Proof.
  intros H1 H2.
  destruct (Z.lt_trichotomy k1 k2) as [L|[L|L]]; [|exact L|].
  - pose proof (boundary_mono timeRange now (k1 + 1) k2 ltac:(lia)). lia.
  - pose proof (boundary_mono timeRange now (k2 + 1) k1 ltac:(lia)). lia.
Qed.

(** ** Labels *)

Lemma string_length_append (s1 s2 : string) :
  String.length (s1 +:+ s2) = (String.length s1 + String.length s2)%nat.
Proof.
  induction s1 as [|c s1 IH]; [reflexivity|].
  change (S (String.length (s1 +:+ s2)) = S (String.length s1 + String.length s2)).
  now rewrite IH.
Qed.

Lemma append_inv_tail (s1 s2 t : string) : s1 +:+ t = s2 +:+ t -> s1 = s2.
Proof.
  revert s2. induction s1 as [|c s1 IH]; intros [|c2 s2] H.
  - reflexivity.
  - apply (f_equal String.length) in H.
    change (String.length t = S (String.length (s2 +:+ t))) in H.
    rewrite string_length_append in H. lia.
  - apply (f_equal String.length) in H.
    change (S (String.length (s1 +:+ t)) = String.length t) in H.
    rewrite string_length_append in H. lia.
  - change (String c (s1 +:+ t) = String c2 (s2 +:+ t)) in H.
    injection H as -> H. f_equal. apply IH. exact H.
Qed.

Lemma decimalValue_zeros k s :
  fst (decimalValue (zeros k +:+ s)) = fst (decimalValue s).
Proof.
  induction k as [|k IH]; [reflexivity|].
  change (zeros (S k) +:+ s) with (String "0" (zeros k +:+ s)).
  cbn [decimalValue]. destruct (decimalValue (zeros k +:+ s)) as [v w].
  cbn [fst] in *. rewrite <- IH. change (digitValue "0") with 0%N. lia.
Qed.

Lemma digitValue_pretty d : (d < 10)%N -> digitValue (pretty_N_char d) = d.
Proof.
  intros H.
  assert (Hc : (d = 0 \/ d = 1 \/ d = 2 \/ d = 3 \/ d = 4 \/ d = 5 \/ d = 6 \/ d = 7
               \/ d = 8 \/ d = 9)%N) by lia.
  repeat (destruct Hc as [-> | Hc]); try subst d; reflexivity.
Qed.

Lemma decimalValue_pretty_go x s :
  fst (decimalValue (pretty_N_go x s))
  = (x * snd (decimalValue s) + fst (decimalValue s))%N.
Proof.
  revert s. induction (N.lt_wf_0 x) as [x _ IH]. intros s.
  destruct (N.eq_dec x 0%N) as [->|Hx].
  - rewrite pretty_N_go_0. lia.
  - rewrite pretty_N_go_step by lia.
    rewrite IH by (apply N.div_lt; lia).
    cbn [decimalValue]. destruct (decimalValue s) as [v w]. cbn [fst snd].
    rewrite digitValue_pretty by (apply N.mod_lt; lia).
    pose proof (N.div_mod x 10 ltac:(lia)). nia.
Qed.

Lemma decimalValue_pretty (x : N) : fst (decimalValue (pretty x)) = x.
Proof.
  unfold pretty, pretty_N. destruct (decide (x = 0%N)) as [->|Hx]; [reflexivity|].
  rewrite decimalValue_pretty_go. cbn. lia.
Qed.

Lemma addLeadingZeros_value number targetLength :
  0 <= number ->
  fst (decimalValue (addLeadingZeros number targetLength)) = Z.to_N number.
Proof.
  intros H. unfold addLeadingZeros.
  destruct (Z.ltb_spec number 0); [lia|].
  rewrite decimalValue_zeros, decimalValue_pretty. f_equal. lia.
Qed.

Lemma addLeadingZeros_inj n1 n2 targetLength :
  0 <= n1 -> 0 <= n2 ->
  addLeadingZeros n1 targetLength = addLeadingZeros n2 targetLength -> n1 = n2.
Proof.
  intros H1 H2 E. apply (f_equal (fun s => fst (decimalValue s))) in E.
  rewrite !addLeadingZeros_value in E by assumption. lia.
Qed.

Lemma monthAbbr_prefix_inj m1 m2 s1 s2 :
  0 <= m1 <= 11 -> 0 <= m2 <= 11 ->
  monthAbbr m1 +:+ s1 = monthAbbr m2 +:+ s2 -> m1 = m2 /\ s1 = s2.
Proof.
  intros H1 H2.
  assert (C1 : m1 = 0 \/ m1 = 1 \/ m1 = 2 \/ m1 = 3 \/ m1 = 4 \/ m1 = 5 \/ m1 = 6
               \/ m1 = 7 \/ m1 = 8 \/ m1 = 9 \/ m1 = 10 \/ m1 = 11) by lia.
  assert (C2 : m2 = 0 \/ m2 = 1 \/ m2 = 2 \/ m2 = 3 \/ m2 = 4 \/ m2 = 5 \/ m2 = 6
               \/ m2 = 7 \/ m2 = 8 \/ m2 = 9 \/ m2 = 10 \/ m2 = 11) by lia.
  clear H1 H2.
  repeat (destruct C1 as [-> | C1]); try subst m1;
    repeat (destruct C2 as [-> | C2]); try subst m2;
    intros H; vm_compute in H;
    first [ discriminate H | injection H as ->; split; reflexivity ].
Qed.

Lemma getHours_boundary now k :
  getHours (boundary hourly now k) = (now / msPerHour + k) mod 24.
Proof. unfold getHours, HourFromTime, boundary, msPerHour. lia. Qed.

Lemma Day_boundary_daily now k : Day (boundary daily now k) = Day now + k.
Proof. unfold boundary, Day, msPerDay. lia. Qed.

(** Two days less than a year apart that share month and day of month are
    the same day. *)
Lemma same_month_day t1 t2 :
  MonthFromTime t1 = MonthFromTime t2 -> DateFromTime t1 = DateFromTime t2 ->
  -365 < Day t1 - Day t2 < 365 -> Day t1 = Day t2.
Proof.
  intros Hm Hd Hclose.
  destruct (fields_of_time t1) as (_ & _ & Hy1 & Hmo1 & E1).
  destruct (fields_of_time t2) as (_ & _ & Hy2 & Hmo2 & E2).
  rewrite monthStart_day, Hy1, Hmo1, dfc_split in E1.
  rewrite monthStart_day, Hy2, Hmo2, dfc_split in E2.
  rewrite <- Hm, <- Hd in E2.
  set (c := carry (MonthFromTime t1 + 1)) in *.
  destruct (Z.lt_trichotomy (YearFromTime t1) (YearFromTime t2)) as [L|[L|L]].
  - pose proof (yearDays_mono (YearFromTime t1 - c + 1) (YearFromTime t2 - c) ltac:(lia)).
    pose proof (yearDays_succ (YearFromTime t1 - c)).
    destruct (isLeap _); lia.
  - rewrite L in E1. lia.
  - pose proof (yearDays_mono (YearFromTime t2 - c + 1) (YearFromTime t1 - c) ltac:(lia)).
    pose proof (yearDays_succ (YearFromTime t2 - c)).
    destruct (isLeap _); lia.
Qed.

Lemma format_hourly_inj now i j :
  0 <= i < 24 -> 0 <= j < 24 ->
  format hourly (boundary hourly now (- i)) = format hourly (boundary hourly now (- j)) ->
  i = j.
Proof.
  intros Hi Hj H. unfold format in H.
  apply append_inv_tail in H.
  rewrite !getHours_boundary in H.
  apply addLeadingZeros_inj in H; lia.
Qed.

Lemma format_daily_inj now i j :
  0 <= i < 30 -> 0 <= j < 30 ->
  format daily (boundary daily now (- i)) = format daily (boundary daily now (- j)) ->
  i = j.
Proof.
  intros Hi Hj.
  generalize (Day_boundary_daily now (- i)) (Day_boundary_daily now (- j)).
  generalize (boundary daily now (- i)) (boundary daily now (- j)).
  intros p1 p2 D1 D2 H. unfold format in H.
  destruct (fields_of_time p1) as (Hm1 & Hd1 & _).
  destruct (fields_of_time p2) as (Hm2 & Hd2 & _).
  apply monthAbbr_prefix_inj in H as [Hm H]; [|exact Hm1|exact Hm2].
  injection H as H.
  apply addLeadingZeros_inj in H; [|unfold getDate; lia..].
  pose proof (same_month_day p1 p2 Hm H) as Hs. lia.
Qed.

Lemma format_monthly_inj now i j :
  0 <= i < 12 -> 0 <= j < 12 ->
  format monthly (boundary monthly now (- i)) = format monthly (boundary monthly now (- j)) ->
  i = j.
Proof.
  intros Hi Hj.
  destruct (fields_of_monthStart (monthIndex now + - i)) as (_ & Hm1 & _).
  destruct (fields_of_monthStart (monthIndex now + - j)) as (_ & Hm2 & _).
  cbv zeta in Hm1, Hm2. unfold boundary.
  generalize dependent (monthStart (monthIndex now + - i) * msPerDay).
  generalize dependent (monthStart (monthIndex now + - j) * msPerDay).
  intros p2 Hm2 p1 Hm1 H. unfold format, getMonth in H.
  rewrite Hm1, Hm2 in H.
  apply monthAbbr_prefix_inj in H as [Hm _]; lia.
Qed.

(** ** Labels of a yearly run

    [format] prints a year that is not positive as [1 - year], so the
    labels of a yearly run repeat exactly when the run covers both year 0
    and year 1, that is, when the reference year is between 1 and 4. *)

Lemma format_yearly_inj_signed now i j :
  ~ (1 <= YearFromTime now <= 4) -> 0 <= i < 5 -> 0 <= j < 5 ->
  format yearly (boundary yearly now (- i)) = format yearly (boundary yearly now (- j)) ->
  i = j.
Proof.
  intros Hnow Hi Hj.
  destruct (fields_of_monthStart (12 * (YearFromTime now + - i))) as (Hy1 & _).
  destruct (fields_of_monthStart (12 * (YearFromTime now + - j))) as (Hy2 & _).
  cbv zeta in Hy1, Hy2. unfold boundary.
  replace (12 * (YearFromTime now + - i) / 12) with (YearFromTime now - i) in Hy1 by lia.
  replace (12 * (YearFromTime now + - j) / 12) with (YearFromTime now - j) in Hy2 by lia.
  generalize dependent (monthStart (12 * (YearFromTime now + - i)) * msPerDay).
  generalize dependent (monthStart (12 * (YearFromTime now + - j)) * msPerDay).
  intros p2 Hy2 p1 Hy1 H. unfold format, getFullYear, formatYear in H.
  rewrite Hy1, Hy2 in H.
  destruct (Z.ltb_spec 0 (YearFromTime now - i));
    destruct (Z.ltb_spec 0 (YearFromTime now - j)); try lia;
    apply addLeadingZeros_inj in H; lia.
Qed.

Lemma labels_NoDup_signed timeRange now :
  (timeRange = yearly -> ~ (1 <= YearFromTime now <= 4)) ->
  List.NoDup (labels timeRange now).
Proof.
  intros Hnow. unfold labels. rewrite periods_boundary, map_map.
  apply NoDup_map_NoDup_ForallPairs; [|apply countdown_NoDup].
  intros i j Hi Hj E. apply countdown_In in Hi, Hj.
  destruct timeRange; cbn [windowCount] in Hi, Hj.
  - apply (format_hourly_inj now); [lia | lia | exact E].
  - apply (format_daily_inj now); [lia | lia | exact E].
  - apply (format_monthly_inj now); [lia | lia | exact E].
  - apply (format_yearly_inj_signed now); [auto | lia | lia | exact E].
Qed.

(** ** Numbers and rounding *)

Lemma Qltb_lt x y : Qltb x y = true <-> (x < y)%Q.
Proof.
  unfold Qltb. rewrite negb_true_iff. split.
  - intros H. apply Qnot_le_lt. intros Hle. apply Qle_bool_iff in Hle. congruence.
  - intros H. destruct (Qle_bool y x) eqn:E; [|reflexivity].
    apply Qle_bool_iff in E. exfalso. apply (Qlt_not_le _ _ H E).
Qed.

Lemma Qltb_ge x y : Qltb x y = false <-> (y <= x)%Q.
Proof.
  unfold Qltb. rewrite negb_false_iff. apply Qle_bool_iff.
Qed.

Lemma Qfloor_unique (x : Q) (k : Z) :
  (inject_Z k <= x)%Q -> (x < inject_Z (k + 1))%Q -> Qfloor x = k.
Proof.
  intros H1 H2.
  pose proof (Qfloor_le x) as F1. pose proof (Qlt_floor x) as F2.
  assert (A : (inject_Z k < inject_Z (Qfloor x + 1))%Q) by (eapply Qle_lt_trans; eassumption).
  assert (B : (inject_Z (Qfloor x) < inject_Z (k + 1))%Q) by (eapply Qle_lt_trans; eassumption).
  rewrite <- Zlt_Qlt in A, B. lia.
Qed.

Lemma toFixed2_nonneg (x : Q) : (0 <= x)%Q -> (0 <= toFixed2 x)%Q.
Proof.
  intros H. unfold toFixed2. destruct (Qltb x 0) eqn:E.
  - apply Qltb_lt in E. lra.
  - assert (F : 0 <= Qfloor (x * 100 + (1 # 2))%Q).
    { change (Qfloor 0 <= Qfloor (x * 100 + (1 # 2))%Q). apply Qfloor_resp_le. lra. }
    unfold Qle. cbn [Qnum Qden]. lia.
Qed.

Lemma toFixed2_nonpos (x : Q) : (x <= 0)%Q -> (toFixed2 x <= 0)%Q.
Proof.
  intros H. unfold toFixed2. destruct (Qltb x 0) eqn:E.
  - assert (F : 0 <= Qfloor ((- x) * 100 + (1 # 2))%Q).
    { change (Qfloor 0 <= Qfloor ((- x) * 100 + (1 # 2))%Q). apply Qfloor_resp_le. lra. }
    unfold Qle. cbn [Qnum Qden]. lia.
  - apply Qltb_ge in E.
    assert (F : Qfloor (x * 100 + (1 # 2))%Q = 0).
    { apply Qfloor_unique.
      - change (inject_Z 0) with 0%Q. lra.
      - change (inject_Z (0 + 1)) with 1%Q. lra. }
    rewrite F. unfold Qle. cbn. lia.
Qed.

Lemma toFixed2_zero (x : Q) : (x == 0)%Q -> (toFixed2 x == 0)%Q.
Proof.
  intros H. apply Qle_antisym.
  - apply toFixed2_nonpos. lra.
  - apply toFixed2_nonneg. lra.
Qed.

Lemma Qltb_proper x x' y y' : (x == x')%Q -> (y == y')%Q -> Qltb x y = Qltb x' y'.
Proof. intros Hx Hy. unfold Qltb. rewrite Hx, Hy. reflexivity. Qed.

(** Rounding sends equal rationals to the same representation. *)
Lemma toFixed2_Qeq x y : (x == y)%Q -> toFixed2 x = toFixed2 y.
Proof.
  intros H. unfold toFixed2. rewrite (Qltb_proper x y 0 0 H (Qeq_refl 0)).
  destruct (Qltb y 0).
  - assert (E : ((- x) * 100 + (1 # 2) == (- y) * 100 + (1 # 2))%Q) by (rewrite H; reflexivity).
    rewrite (Qfloor_comp _ _ E). reflexivity.
  - assert (E : (x * 100 + (1 # 2) == y * 100 + (1 # 2))%Q) by (rewrite H; reflexivity).
    rewrite (Qfloor_comp _ _ E). reflexivity.
Qed.

(** ** The product map *)

Lemma find_append {A : Type} (f : A -> bool) (l1 l2 : list A) :
  List.find f (l1 ++ l2)
  = match List.find f l1 with Some x => Some x | None => List.find f l2 end.
Proof.
  induction l1 as [|a l1 IH]; [reflexivity|].
  cbn [app List.find]. destruct (f a); [reflexivity | exact IH].
Qed.

Lemma productMap_fold_lookup (products : list Product.t) (m : gmap string Product.t) id :
  fold_left (fun m p => <[Product.id p := p]> m) products m !! id
  = match List.find (fun p => String.eqb (Product.id p) id) (List.rev products) with
    | Some p => Some p
    | None => m !! id
    end.
Proof.
  revert m. induction products as [|p products IH]; intros m; [reflexivity|].
  cbn [fold_left List.rev]. rewrite IH, find_append.
  destruct (List.find _ (List.rev products)) as [q|]; [reflexivity|].
  cbn [List.find]. destruct (String.eqb_spec (Product.id p) id) as [E|N].
  - rewrite <- E. apply lookup_insert_eq.
  - apply lookup_insert_ne. exact N.
Qed.

(** [productMap.get(id)] is the last product of the list with that id. *)
Lemma productMap_lookup products id :
  productMap products !! id
  = List.find (fun p => String.eqb (Product.id p) id) (List.rev products).
Proof.
  unfold productMap. rewrite productMap_fold_lookup.
  destruct (List.find _ _); [reflexivity | apply lookup_empty].
Qed.

Lemma productMap_lookup_None products id :
  productMap products !! id = None <-> (forall p, In p products -> Product.id p <> id).
Proof.
  rewrite productMap_lookup. split.
  - intros H p Hp E.
    assert (Hin : In p (List.rev products)) by (apply in_rev; rewrite rev_involutive; exact Hp).
    pose proof (find_none _ _ H p Hin) as F. cbv beta in F.
    apply String.eqb_neq in F. exact (F E).
  - intros H. destruct (List.find _ _) as [p|] eqn:E; [|reflexivity].
    apply find_some in E as [Hin Heq]. apply String.eqb_eq in Heq.
    apply in_rev in Hin. exfalso. exact (H p Hin Heq).
Qed.

(** ** Folds *)

Lemma fold_left_invariant {A B : Type} (P : A -> Prop) (f : A -> B -> A) (l : list B) :
  (forall a b, In b l -> P a -> P (f a b)) -> forall a, P a -> P (fold_left f l a).
Proof.
  induction l as [|b l IH]; intros Hf a Ha; [exact Ha|].
  cbn [fold_left]. apply IH.
  - intros a' b' Hb'. apply Hf. right. exact Hb'.
  - apply Hf; [left; reflexivity | exact Ha].
Qed.

(** A sum of zero contributions started at zero is zero. *)
Lemma fold_left_sum_zero {B : Type} (g : B -> Q) (l : list B) :
  (forall b, In b l -> (g b == 0)%Q) ->
  (fold_left (fun sum b => (sum + g b)%Q) l 0%Q == 0)%Q.
Proof.
  intros H.
  apply (fold_left_invariant (fun a => (a == 0)%Q)); [|reflexivity].
  intros a b Hb Ha. rewrite Ha, (H b Hb). reflexivity.
Qed.

Lemma filter_remove {A : Type} (f : A -> bool) (l1 l2 : list A) (x : A) :
  f x = false -> List.filter f (l1 ++ x :: l2) = List.filter f (l1 ++ l2).
Proof.
  intros H. rewrite !List.filter_app. cbn [List.filter]. rewrite H. reflexivity.
Qed.

(** ** Purchase totals *)

Lemma purchaseStep_nonneg st acc :
  (0 <= fst st /\ 0 <= snd st)%Q ->
  (0 <= fst (purchaseStep st acc) /\ 0 <= snd (purchaseStep st acc))%Q.
Proof.
  intros [H1 H2]. unfold purchaseStep.
  destruct (Qltb 0 (Account.profit acc)) eqn:E1.
  - apply Qltb_lt in E1. cbn [fst snd]. split; lra.
  - destruct (Qltb (Account.profit acc) 0) eqn:E2.
    + pose proof (Qabs_nonneg (Account.profit acc)). cbn [fst snd]. split; lra.
    + split; assumption.
Qed.

Lemma purchaseTotals_nonneg purchases :
  (0 <= fst (purchaseTotals purchases) /\ 0 <= snd (purchaseTotals purchases))%Q.
Proof.
  unfold purchaseTotals.
  apply (fold_left_invariant (fun st => (0 <= fst st /\ 0 <= snd st)%Q)).
  - intros a b _. apply purchaseStep_nonneg.
  - cbn. split; lra.
Qed.

(** Without a strictly negative profit nothing is ever added to the loss. *)
Lemma purchaseTotals_no_loss purchases :
  Forall (fun a => (0 <= Account.profit a)%Q) purchases ->
  snd (purchaseTotals purchases) = 0%Q.
Proof.
  intros H. unfold purchaseTotals.
  apply (fold_left_invariant (fun st => snd st = 0%Q)); [|reflexivity].
  intros st a Ha Hst. rewrite List.Forall_forall in H. specialize (H a Ha).
  unfold purchaseStep. destruct (Qltb 0 (Account.profit a)); [exact Hst|].
  destruct (Qltb (Account.profit a) 0) eqn:E; [|exact Hst].
  apply Qltb_lt in E. lra.
Qed.

Lemma purchaseTotals_no_profit purchases :
  Forall (fun a => (Account.profit a <= 0)%Q) purchases ->
  fst (purchaseTotals purchases) = 0%Q.
Proof.
  intros H. unfold purchaseTotals.
  apply (fold_left_invariant (fun st => fst st = 0%Q)); [|reflexivity].
  intros st a Ha Hst. rewrite List.Forall_forall in H. specialize (H a Ha).
  unfold purchaseStep. destruct (Qltb 0 (Account.profit a)) eqn:E.
  - apply Qltb_lt in E. lra.
  - destruct (Qltb (Account.profit a) 0); exact Hst.
Qed.

(** ** The locals of one period *)

Lemma periodLocals_unfold timeRange productMap orders returns accounts period :
  let l := periodLocals timeRange productMap orders returns accounts period in
  let pOrders := periodOrders timeRange orders period in
  let pReturns := periodReturns timeRange returns period in
  let pPurchases := periodPurchases timeRange accounts period in
  let gross := (revenueOf pOrders - cogsOf productMap pOrders)%Q in
  let grossSplit := if Qltb 0 gross then (gross, 0%Q)
                    else if Qltb gross 0 then (0%Q, Qabs gross) else (0%Q, 0%Q) in
  let net := ((revenueOf pOrders - refundAmountOf pReturns)
              - (cogsOf productMap pOrders - returnedCostOf productMap pReturns))%Q in
  let netSplit := if Qltb 0 net then (net, 0%Q)
                  else if Qltb net 0 then (0%Q, Qabs net) else grossSplit in
  Locals.purchaseProfit l = fst (purchaseTotals pPurchases) /\
  Locals.purchaseLoss l = snd (purchaseTotals pPurchases) /\
  Locals.salesProfit l = fst netSplit /\
  Locals.salesLoss l = snd netSplit /\
  Locals.totalProfit l = (fst (purchaseTotals pPurchases) + fst netSplit)%Q /\
  Locals.totalLoss l = (snd (purchaseTotals pPurchases) + snd netSplit)%Q /\
  Locals.netRevenue l = (revenueOf pOrders - refundAmountOf pReturns)%Q /\
  Locals.netCost l = (cogsOf productMap pOrders - returnedCostOf productMap pReturns)%Q /\
  Locals.netSalesDifference l = net /\
  Locals.orderCount l = length pOrders /\
  Locals.returnCount l = length pReturns.
Proof.
  cbv zeta. unfold periodLocals.
  destruct (purchaseTotals _) as [pp pl].
  set (gross := (revenueOf _ - cogsOf _ _)%Q).
  set (net := (_ - _ - (_ - _))%Q).
  destruct (Qltb 0 gross), (Qltb gross 0), (Qltb 0 net), (Qltb net 0);
    cbn [fst snd Locals.purchaseProfit Locals.purchaseLoss Locals.salesProfit
         Locals.salesLoss Locals.totalProfit Locals.totalLoss Locals.netRevenue
         Locals.netCost Locals.netSalesDifference Locals.orderCount Locals.returnCount];
    repeat split; reflexivity.
Qed.

Lemma periodLocals_sales_exclusive timeRange productMap orders returns accounts period :
  let l := periodLocals timeRange productMap orders returns accounts period in
  (Locals.salesProfit l == 0 \/ Locals.salesLoss l == 0)%Q.
Proof.
  destruct (periodLocals_unfold timeRange productMap orders returns accounts period)
    as (_ & _ & Hsp & Hsl & _).
  cbv zeta in *. rewrite Hsp, Hsl.
  repeat match goal with |- context [Qltb ?a ?b] => destruct (Qltb a b) end;
    cbn [fst snd]; first [left; reflexivity | right; reflexivity].
Qed.

(* ================================================================== *)
(** * The periodized result                                            *)
(* ================================================================== *)

(** C1 (behaviour of the code on the fully refunded order).  One order of
    100.00 for two units of X (cost basis 10.00) and one return in the same
    window refunding 100.00 for two units of X: the net sales difference is
    exactly zero, neither branch of the net adjustment runs, and the row
    keeps the gross split, salesProfit = 80.00, instead of 0. *)
Theorem C1_full_refund_keeps_gross_split :
  let pm := productMap scenarioProducts in
  let l := periodLocals daily pm [scenarioOrder] [scenarioReturn] [] 0 in
  let r := periodRow daily pm [scenarioOrder] [scenarioReturn] [] 0 in
  (Locals.netSalesDifference l == 0 /\
   ProfitData.revenue r == 0 /\ ProfitData.cost r == 0 /\
   ProfitData.salesProfit r == 80 /\ ProfitData.salesLoss r == 0)%Q.
Proof. vm_compute. repeat split. Qed.

(** C2, as stated, fails for the purchase pair: a window holding a purchase
    row with profit 10 and one with profit -5 has purchaseProfit = 10 and
    purchaseLoss = 5. *)
Lemma C2_counterexample :
  let r := periodRow daily ∅ [] [] mixedPurchases 0 in
  ~ (ProfitData.purchaseProfit r == 0 \/ ProfitData.purchaseLoss r == 0)%Q.
Proof. vm_compute. intros [H|H]; discriminate H. Qed.

(** C2 (amended).  In every row at most one of salesProfit and salesLoss is
    nonzero; purchaseProfit and purchaseLoss are both accumulated over the
    window's purchase rows, and at most one of them is nonzero when those
    rows do not mix strictly positive and strictly negative profits. *)
Theorem C2_profit_loss_exclusive timeRange productMap orders returns accounts period :
  let r := periodRow timeRange productMap orders returns accounts period in
  let purchases := periodPurchases timeRange accounts period in
  (ProfitData.salesProfit r == 0 \/ ProfitData.salesLoss r == 0)%Q /\
  (Forall (fun a => (0 <= Account.profit a)%Q) purchases
   \/ Forall (fun a => (Account.profit a <= 0)%Q) purchases ->
   (ProfitData.purchaseProfit r == 0 \/ ProfitData.purchaseLoss r == 0)%Q).
Proof.
  cbv zeta. unfold periodRow.
  cbn [ProfitData.salesProfit ProfitData.salesLoss ProfitData.purchaseProfit
       ProfitData.purchaseLoss].
  split.
  - destruct (periodLocals_sales_exclusive timeRange productMap orders returns accounts period)
      as [S|S]; [left | right]; apply toFixed2_zero; exact S.
  - destruct (periodLocals_unfold timeRange productMap orders returns accounts period)
      as (Hpp & Hpl & _).
    rewrite Hpp, Hpl. intros [H|H].
    + right. rewrite (purchaseTotals_no_loss _ H). apply toFixed2_zero. reflexivity.
    + left. rewrite (purchaseTotals_no_profit _ H). apply toFixed2_zero. reflexivity.
Qed.

Lemma C2_profit_loss_exclusive_witness :
  let r := periodRow daily ∅ [] [] subCentPurchases 0 in
  (ProfitData.salesProfit r == 0 \/ ProfitData.salesLoss r == 0)%Q /\
  (ProfitData.purchaseProfit r == 0 \/ ProfitData.purchaseLoss r == 0)%Q.
Proof.
  destruct (C2_profit_loss_exclusive daily ∅ [] [] subCentPurchases 0) as [H1 H2].
  split; [exact H1|]. apply H2. left.
  vm_compute. repeat constructor. discriminate.
Defined.

(** C3, as stated, fails: with a purchase profit of 0.004 and a sales profit
    of 0.004 both parts round to 0.00 while their sum 0.008 rounds to 0.01. *)
Lemma C3_counterexample :
  let r := periodRow daily ∅ subCentOrders [] subCentPurchases 0 in
  ~ (ProfitData.totalProfit r == ProfitData.purchaseProfit r + ProfitData.salesProfit r)%Q.
Proof. vm_compute. discriminate. Qed.

(** C3 (amended).  Each monetary field is rounded on its own at
    finalization: the four parts from their unrounded values, the
    totalProfit field from unrounded purchaseProfit plus unrounded
    salesProfit, and the totalLoss field from unrounded purchaseLoss plus
    unrounded salesLoss.  When one of the two unrounded parts of a total is
    zero, the rounded total equals the sum of the two rounded parts. *)
Theorem C3_totals_rounding timeRange productMap orders returns accounts period :
  let l := periodLocals timeRange productMap orders returns accounts period in
  let r := periodRow timeRange productMap orders returns accounts period in
  ProfitData.purchaseProfit r = toFixed2 (Locals.purchaseProfit l) /\
  ProfitData.purchaseLoss r = toFixed2 (Locals.purchaseLoss l) /\
  ProfitData.salesProfit r = toFixed2 (Locals.salesProfit l) /\
  ProfitData.salesLoss r = toFixed2 (Locals.salesLoss l) /\
  ProfitData.totalProfit r = toFixed2 (Locals.purchaseProfit l + Locals.salesProfit l) /\
  ProfitData.totalLoss r = toFixed2 (Locals.purchaseLoss l + Locals.salesLoss l) /\
  ((Locals.purchaseProfit l == 0 \/ Locals.salesProfit l == 0)%Q ->
   (ProfitData.totalProfit r == ProfitData.purchaseProfit r + ProfitData.salesProfit r)%Q) /\
  ((Locals.purchaseLoss l == 0 \/ Locals.salesLoss l == 0)%Q ->
   (ProfitData.totalLoss r == ProfitData.purchaseLoss r + ProfitData.salesLoss r)%Q).
Proof.
  cbv zeta.
  destruct (periodLocals_unfold timeRange productMap orders returns accounts period)
    as (Hpp & Hpl & Hsp & Hsl & Htp & Htl & _).
  cbv zeta in *. unfold periodRow.
  cbn [ProfitData.totalProfit ProfitData.totalLoss ProfitData.purchaseProfit
       ProfitData.purchaseLoss ProfitData.salesProfit ProfitData.salesLoss].
  assert (Etp : Locals.totalProfit
                  (periodLocals timeRange productMap orders returns accounts period)
                = (Locals.purchaseProfit
                     (periodLocals timeRange productMap orders returns accounts period)
                   + Locals.salesProfit
                       (periodLocals timeRange productMap orders returns accounts period))%Q)
    by (rewrite Htp, Hpp, Hsp; reflexivity).
  assert (Etl : Locals.totalLoss
                  (periodLocals timeRange productMap orders returns accounts period)
                = (Locals.purchaseLoss
                     (periodLocals timeRange productMap orders returns accounts period)
                   + Locals.salesLoss
                       (periodLocals timeRange productMap orders returns accounts period))%Q)
    by (rewrite Htl, Hpl, Hsl; reflexivity).
  rewrite Etp, Etl. clear Hpp Hpl Hsp Hsl Htp Htl Etp Etl.
  generalize (Locals.purchaseProfit
                (periodLocals timeRange productMap orders returns accounts period))
             (Locals.salesProfit
                (periodLocals timeRange productMap orders returns accounts period))
             (Locals.purchaseLoss
                (periodLocals timeRange productMap orders returns accounts period))
             (Locals.salesLoss
                (periodLocals timeRange productMap orders returns accounts period)).
  intros pp sp pl sl.
  repeat apply conj; try reflexivity.
  - intros [Z | Z].
    + rewrite (toFixed2_Qeq (pp + sp) sp) by (rewrite Z; ring).
      rewrite (toFixed2_zero pp Z). ring.
    + rewrite (toFixed2_Qeq (pp + sp) pp) by (rewrite Z; ring).
      rewrite (toFixed2_zero sp Z). ring.
  - intros [Z | Z].
    + rewrite (toFixed2_Qeq (pl + sl) sl) by (rewrite Z; ring).
      rewrite (toFixed2_zero pl Z). ring.
    + rewrite (toFixed2_Qeq (pl + sl) pl) by (rewrite Z; ring).
      rewrite (toFixed2_zero sl Z). ring.
Qed.

Lemma C3_totals_rounding_witness :
  let r := periodRow daily ∅ [] [] mixedPurchases 0 in
  (ProfitData.totalProfit r == ProfitData.purchaseProfit r + ProfitData.salesProfit r)%Q /\
  (ProfitData.totalLoss r == ProfitData.purchaseLoss r + ProfitData.salesLoss r)%Q.
Proof.
  destruct (C3_totals_rounding daily ∅ [] [] mixedPurchases 0)
    as (_ & _ & _ & _ & _ & _ & H1 & H2).
  split.
  - apply H1. right. vm_compute. reflexivity.
  - apply H2. right. vm_compute. reflexivity.
Defined.



(** C8.  In the summary, profitMargin is netProfit / totalRevenue * 100
    when totalRevenue > 0 and 0 otherwise, and returnRate is
    totalReturns / totalOrders * 100 when totalOrders > 0 and 0 otherwise;
    a division is only evaluated with a nonzero divisor. *)
Theorem C8_margin_and_return_rate (profitData : list ProfitData.t) (products : list Product.t) :
  let s := statistics profitData products in
  Statistics.totalRevenue s = sumQ ProfitData.revenue profitData /\
  Statistics.netProfit s = (Statistics.totalProfit s - Statistics.totalLoss s)%Q /\
  Statistics.totalOrders s = sumZ ProfitData.orders profitData /\
  Statistics.totalReturns s = sumZ ProfitData.returns profitData /\
  ((0 < Statistics.totalRevenue s)%Q ->
   Statistics.profitMargin s
   = (Statistics.netProfit s / Statistics.totalRevenue s * 100)%Q
   /\ ~ (Statistics.totalRevenue s == 0)%Q) /\
  ((Statistics.totalRevenue s <= 0)%Q -> Statistics.profitMargin s = 0%Q) /\
  (0 < Statistics.totalOrders s ->
   Statistics.returnRate s
   = (inject_Z (Statistics.totalReturns s) / inject_Z (Statistics.totalOrders s) * 100)%Q
   /\ ~ (inject_Z (Statistics.totalOrders s) == 0)%Q) /\
  (Statistics.totalOrders s <= 0 -> Statistics.returnRate s = 0%Q).
Proof.
  cbv zeta. unfold statistics.
  cbn [Statistics.totalRevenue Statistics.netProfit Statistics.totalProfit
       Statistics.totalLoss Statistics.totalOrders Statistics.totalReturns
       Statistics.profitMargin Statistics.returnRate].
  repeat split.
  - destruct (Qltb 0 (sumQ ProfitData.revenue profitData)) eqn:E; [reflexivity|].
    apply Qltb_ge in E. lra.
  - lra.
  - destruct (Qltb 0 (sumQ ProfitData.revenue profitData)) eqn:E; [|reflexivity].
    apply Qltb_lt in E. lra.
  - destruct (Z.ltb_spec 0 (sumZ ProfitData.orders profitData)); [reflexivity | lia].
  - intros E. unfold Qeq, inject_Z in E. cbn in E. lia.
  - destruct (Z.ltb_spec 0 (sumZ ProfitData.orders profitData)); [lia | reflexivity].
Qed.

Lemma C8_margin_and_return_rate_witness :
  let pd := [periodRow daily (productMap scenarioProducts) [scenarioOrder] [] [] 0] in
  let s := statistics pd scenarioProducts in
  (Statistics.profitMargin s == 80)%Q /\ Statistics.returnRate s = 0%Q.
Proof.
  cbv zeta.
  destruct (C8_margin_and_return_rate
              [periodRow daily (productMap scenarioProducts) [scenarioOrder] [] [] 0]
              scenarioProducts) as (_ & _ & _ & _ & H5 & _ & H7 & _).
  cbv zeta in *. split.
  - destruct H5 as [-> _]; [vm_compute; reflexivity|]. vm_compute. reflexivity.
  - destruct H7 as [-> _]; [vm_compute; reflexivity|]. vm_compute. reflexivity.
Defined.




(* ================================================================== *)
(** * The windows of one run                                           *)
(* ================================================================== *)

Lemma countdown_map_sorted (b : Z -> Z) (n : nat) :
  (forall k1 k2, k1 < k2 -> b k1 < b k2) ->
  StronglySorted Z.lt (map (fun i => b (- i)) (countdown n)).
Proof.
  intros Hb. induction n as [|n IH].
  - repeat constructor.
  - change (countdown (S n)) with (Z.of_nat (S n) :: countdown n).
    cbn [map]. constructor; [exact IH|].
    rewrite List.Forall_forall. intros x Hx.
    apply in_map_iff in Hx as (i & <- & Hi). apply countdown_In in Hi.
    apply Hb. lia.
Qed.

Lemma periods_sorted timeRange now : StronglySorted Z.lt (periods timeRange now).
Proof.
  rewrite periods_boundary. apply countdown_map_sorted.
  intros k1 k2. apply boundary_strict.
Qed.

Lemma yearStart_succ y :
  monthStart (12 * (y + 1)) = monthStart (12 * y) + (if isLeap y then 366 else 365).
Proof.
  unfold monthStart.
  replace (12 * (y + 1) / 12) with (y + 1) by lia.
  replace (12 * (y + 1) mod 12) with 0 by lia.
  replace (12 * y / 12) with y by lia.
  replace (12 * y mod 12) with 0 by lia.
  rewrite !dfc_split. change (carry (0 + 1)) with 1.
  pose proof (yearDays_succ (y - 1)) as S.
  replace (y - 1 + 1) with y in S by lia.
  replace (y + 1 - 1) with y by lia. lia.
Qed.

(** Every generated window lies inside the span of the run. *)
Lemma period_in_span timeRange now p :
  In p (periods timeRange now) ->
  spanStart timeRange now <= p /\ nextPeriod timeRange p <= spanEnd timeRange now.
Proof.
  intros H. apply periods_In in H as (k & Hk & ->).
  rewrite spanStart_eq, spanEnd_eq, nextPeriod_boundary.
  split; apply boundary_mono; lia.
Qed.

Lemma outside_not_inPeriod timeRange now p t :
  In p (periods timeRange now) ->
  t < spanStart timeRange now \/ spanEnd timeRange now <= t ->
  inPeriod p (nextPeriod timeRange p) t = false.
Proof.
  intros Hp Ht. destruct (period_in_span timeRange now p Hp) as [H1 H2].
  destruct (inPeriod p (nextPeriod timeRange p) t) eqn:E; [|reflexivity].
  apply inPeriod_iff in E. lia.
Qed.

(** A time inside the span lies in exactly one window. *)
Lemma span_unique_window timeRange now t :
  spanStart timeRange now <= t < spanEnd timeRange now ->
  exists! i : nat, exists p, periods timeRange now !! i = Some p
                             /\ p <= t < nextPeriod timeRange p.
Proof.
  intros Ht. rewrite spanStart_eq, spanEnd_eq in Ht.
  assert (Hn : (0 < windowCount timeRange)%nat) by (destruct timeRange; cbn; lia).
  destruct (boundary_cover timeRange now (windowCount timeRange - 1) t) as (k & Hk & Hin).
  { replace (- Z.of_nat (windowCount timeRange - 1))
      with (1 - Z.of_nat (windowCount timeRange)) by lia.
    exact Ht. }
  exists (Z.to_nat (k + Z.of_nat (windowCount timeRange) - 1)). split.
  - exists (boundary timeRange now k). split.
    + rewrite periods_lookup by lia. f_equal. f_equal. lia.
    + rewrite nextPeriod_boundary. exact Hin.
  - intros j (q & Hq & Hjn). apply periods_lookup_inv in Hq as [Hj ->].
    rewrite nextPeriod_boundary in Hjn.
    pose proof (boundary_unique timeRange now _ _ t Hin Hjn). lia.
Qed.

Lemma periods_consecutive timeRange now i p q :
  periods timeRange now !! i = Some p -> periods timeRange now !! S i = Some q ->
  nextPeriod timeRange p = q /\ p < q.
Proof.
  intros Hp Hq.
  apply periods_lookup_inv in Hp as [_ ->]. apply periods_lookup_inv in Hq as [_ ->].
  rewrite nextPeriod_boundary.
  replace (Z.of_nat (S i) + 1 - Z.of_nat (windowCount timeRange))
    with (Z.of_nat i + 1 - Z.of_nat (windowCount timeRange) + 1) by lia.
  split; [reflexivity | apply boundary_lt].
Qed.

Lemma periods_ordered timeRange now i j p q :
  (i < j)%nat ->
  periods timeRange now !! i = Some p -> periods timeRange now !! j = Some q ->
  nextPeriod timeRange p <= q.
Proof.
  intros Hij Hp Hq.
  apply periods_lookup_inv in Hp as [_ ->]. apply periods_lookup_inv in Hq as [_ ->].
  rewrite nextPeriod_boundary. apply boundary_mono. lia.
Qed.

Lemma period_lt_next timeRange now p :
  In p (periods timeRange now) -> p < nextPeriod timeRange p.
Proof.
  intros H. apply periods_In in H as (k & _ & ->).
  rewrite nextPeriod_boundary. apply boundary_lt.
Qed.

(** The windows generated on local time values: their number, their
    order, the last one, and the length of each. *)
Lemma generator_local_time (now : Z) :
  (length (periods hourly now) = 24 /\ length (periods daily now) = 30 /\
   length (periods monthly now) = 12 /\ length (periods yearly now) = 5)%nat /\
  (forall timeRange, StronglySorted Z.lt (periods timeRange now)) /\
  (forall timeRange,
     let p := List.last (periods timeRange now) 0 in
     p <= now < nextPeriod timeRange p) /\
  List.last (periods hourly now) 0 = now - now mod msPerHour /\
  List.last (periods daily now) 0 = startOfDay now /\
  List.last (periods monthly now) 0 = startOfMonth now /\
  List.last (periods yearly now) 0 = startOfYear now /\
  Forall (fun p => nextPeriod hourly p = p + msPerHour) (periods hourly now) /\
  Forall (fun p => nextPeriod daily p = p + msPerDay) (periods daily now) /\
  Forall (fun p => getDate p = 1 /\ TimeWithinDay p = 0 /\
                   nextPeriod monthly p
                   = p + monthLength (getFullYear p) (getMonth p + 1) * msPerDay)
         (periods monthly now) /\
  Forall (fun p => getMonth p = 0 /\ getDate p = 1 /\ TimeWithinDay p = 0 /\
                   nextPeriod yearly p
                   = p + (if isLeap (getFullYear p) then 366 else 365) * msPerDay)
         (periods yearly now).
Proof.
  repeat apply conj; try (rewrite periods_length; reflexivity).
  - intros timeRange. apply periods_sorted.
  - intros timeRange. cbv zeta. rewrite periods_last, nextPeriod_boundary.
    apply boundary_now.
  - rewrite periods_last. unfold boundary, msPerHour. lia.
  - rewrite periods_last, startOfDay_eq. unfold boundary. f_equal. lia.
  - rewrite periods_last, startOfMonth_eq. unfold boundary. f_equal. f_equal. lia.
  - rewrite periods_last, startOfYear_eq. unfold boundary. f_equal. f_equal. lia.
  - rewrite List.Forall_forall. intros p _. apply setHours_succ.
  - rewrite List.Forall_forall. intros p _.
    unfold nextPeriod. rewrite setDate_add. lia.
  - rewrite List.Forall_forall. intros p Hp.
    apply periods_In in Hp as (k & _ & ->).
    rewrite nextPeriod_boundary. unfold boundary.
    replace (monthIndex now + (k + 1)) with (monthIndex now + k + 1) by lia.
    rewrite monthStart_succ.
    destruct (fields_of_monthStart (monthIndex now + k)) as (Hy & Hm & Hd & _ & Ht).
    cbv zeta in *. unfold getDate, getFullYear, getMonth. rewrite Hy, Hm, Hd, Ht.
    repeat split. lia.
  - rewrite List.Forall_forall. intros p Hp.
    apply periods_In in Hp as (k & _ & ->).
    rewrite nextPeriod_boundary. unfold boundary.
    replace (YearFromTime now + (k + 1)) with (YearFromTime now + k + 1) by lia.
    rewrite yearStart_succ.
    destruct (fields_of_monthStart (12 * (YearFromTime now + k))) as (Hy & Hm & Hd & _ & Ht).
    cbv zeta in *. unfold getDate, getFullYear, getMonth. rewrite Hy, Hm, Hd, Ht.
    replace (12 * (YearFromTime now + k) / 12) with (YearFromTime now + k) by lia.
    repeat split; lia.
Qed.

(* ================================================================== *)
(** * Zones                                                            *)
(* ================================================================== *)

(** ** A zone with one offset

    With a single offset [c] every zone-aware operation is the local-time
    operation conjugated by the translation [t |-> t + c]. *)

Lemma LocalTime_fixed c t : LocalTime (fixedOffset c) t = t + c.
Proof. reflexivity. Qed.

Lemma UTC_fixed c tlocal : UTC (fixedOffset c) tlocal = tlocal - c.
Proof. reflexivity. Qed.

Lemma getHours_fixed c t : Zoned.getHours (fixedOffset c) t = getHours (t + c).
Proof. unfold Zoned.getHours, getHours. fixed_zone. Qed.

Lemma getDate_fixed c t : Zoned.getDate (fixedOffset c) t = getDate (t + c).
Proof. unfold Zoned.getDate, getDate. fixed_zone. Qed.

Lemma getMonth_fixed c t : Zoned.getMonth (fixedOffset c) t = getMonth (t + c).
Proof. unfold Zoned.getMonth, getMonth. fixed_zone. Qed.

Lemma getFullYear_fixed c t : Zoned.getFullYear (fixedOffset c) t = getFullYear (t + c).
Proof. unfold Zoned.getFullYear, getFullYear. fixed_zone. Qed.

Lemma setHours4_fixed c t hour min sec ms :
  Zoned.setHours4 (fixedOffset c) t hour min sec ms = setHours4 (t + c) hour min sec ms - c.
Proof. unfold Zoned.setHours4, setHours4. fixed_zone. Qed.

Lemma setHours_fixed c t hour :
  Zoned.setHours (fixedOffset c) t hour = setHours (t + c) hour - c.
Proof. unfold Zoned.setHours, setHours. fixed_zone. Qed.

Lemma setDate_fixed c t dt :
  Zoned.setDate (fixedOffset c) t dt = setDate (t + c) dt - c.
Proof. unfold Zoned.setDate, setDate. fixed_zone. Qed.

Lemma setMonth_fixed c t month :
  Zoned.setMonth (fixedOffset c) t month = setMonth (t + c) month - c.
Proof. unfold Zoned.setMonth, setMonth. fixed_zone. Qed.

Lemma setMonth2_fixed c t month dt :
  Zoned.setMonth2 (fixedOffset c) t month dt = setMonth2 (t + c) month dt - c.
Proof. unfold Zoned.setMonth2, setMonth2. fixed_zone. Qed.

Lemma setFullYear_fixed c t year :
  Zoned.setFullYear (fixedOffset c) t year = setFullYear (t + c) year - c.
Proof. unfold Zoned.setFullYear, setFullYear. fixed_zone. Qed.

Lemma setFullYear3_fixed c t year month dt :
  Zoned.setFullYear3 (fixedOffset c) t year month dt = setFullYear3 (t + c) year month dt - c.
Proof. unfold Zoned.setFullYear3, setFullYear3. fixed_zone. Qed.

Lemma startOfDay_fixed c d : Zoned.startOfDay (fixedOffset c) d = startOfDay (d + c) - c.
Proof. unfold Zoned.startOfDay, startOfDay. apply setHours4_fixed. Qed.

Lemma startOfMonth_fixed c d :
  Zoned.startOfMonth (fixedOffset c) d = startOfMonth (d + c) - c.
Proof.
  unfold Zoned.startOfMonth, startOfMonth.
  rewrite setHours4_fixed, setDate_fixed, Z.sub_add. reflexivity.
Qed.

(** [startOfYear] starts from [new Date(0)]; only its time of day could
    differ from that of the argument, and [setHours] erases it. *)
Lemma startOfYear_fixed c d :
  Zoned.startOfYear (fixedOffset c) d = startOfYear (d + c) - c.
Proof.
  unfold Zoned.startOfYear, startOfYear.
  rewrite setHours4_fixed, setFullYear3_fixed, getFullYear_fixed, Z.sub_add.
  unfold setHours4, setFullYear3.
  rewrite !Day_MakeDate by apply TimeWithinDay_bound. reflexivity.
Qed.

Lemma addDays_fixed c d amount :
  Zoned.addDays (fixedOffset c) d amount = addDays (d + c) amount - c.
Proof.
  unfold Zoned.addDays, addDays. rewrite setDate_fixed, getDate_fixed.
  destruct (amount =? 0); [lia | reflexivity].
Qed.

Lemma addMonths_fixed c d amount :
  Zoned.addMonths (fixedOffset c) d amount = addMonths (d + c) amount - c.
Proof.
  unfold Zoned.addMonths, addMonths. cbv zeta.
  rewrite !setMonth2_fixed, !setFullYear3_fixed, !getDate_fixed, !getMonth_fixed,
    !getFullYear_fixed, !Z.sub_add.
  destruct (amount =? 0); [lia|].
  destruct (_ <=? _); reflexivity.
Qed.

Lemma periods_fixed c timeRange now :
  Zoned.periods (fixedOffset c) timeRange now
  = map (fun p => p - c) (periods timeRange (now + c)).
Proof.
  destruct timeRange; unfold Zoned.periods, periods; rewrite map_map;
    apply map_ext; intros i.
  - rewrite setHours4_fixed, getHours_fixed. reflexivity.
  - unfold Zoned.subDays, subDays.
    rewrite addDays_fixed, startOfDay_fixed, Z.sub_add. reflexivity.
  - unfold Zoned.subMonths, subMonths.
    rewrite addMonths_fixed, startOfMonth_fixed, Z.sub_add. reflexivity.
  - unfold Zoned.subYears, subYears, Zoned.addYears, addYears.
    rewrite addMonths_fixed, startOfYear_fixed, Z.sub_add. reflexivity.
Qed.

Lemma nextPeriod_fixed c timeRange period :
  Zoned.nextPeriod (fixedOffset c) timeRange period = nextPeriod timeRange (period + c) - c.
Proof.
  destruct timeRange; unfold Zoned.nextPeriod, nextPeriod.
  - rewrite setHours_fixed, getHours_fixed. reflexivity.
  - rewrite setDate_fixed, getDate_fixed. reflexivity.
  - rewrite setMonth_fixed, getMonth_fixed. reflexivity.
  - rewrite setFullYear_fixed, getFullYear_fixed. reflexivity.
Qed.

Lemma format_fixed c timeRange date :
  Zoned.format (fixedOffset c) timeRange date = format timeRange (date + c).
Proof.
  destruct timeRange; unfold Zoned.format, format;
    rewrite ?getHours_fixed, ?getDate_fixed, ?getMonth_fixed, ?getFullYear_fixed;
    reflexivity.
Qed.

Lemma labels_fixed c timeRange now :
  Zoned.labels (fixedOffset c) timeRange now = labels timeRange (now + c).
Proof.
  unfold Zoned.labels, labels. rewrite periods_fixed, map_map.
  apply map_ext. intros p. rewrite format_fixed, Z.sub_add. reflexivity.
Qed.

Lemma periods_fixed_lookup c timeRange now i p :
  Zoned.periods (fixedOffset c) timeRange now !! i = Some p
  <-> periods timeRange (now + c) !! i = Some (p + c).
Proof.
  rewrite periods_fixed, lookup_map.
  destruct (periods timeRange (now + c) !! i) as [q|]; cbn.
  - split; intros E; injection E as E; f_equal; lia.
  - split; discriminate.
Qed.

Lemma periods_fixed_In c timeRange now p :
  In p (Zoned.periods (fixedOffset c) timeRange now)
  <-> In (p + c) (periods timeRange (now + c)).
Proof.
  rewrite periods_fixed, in_map_iff. split.
  - intros (q & <- & Hq). rewrite Z.sub_add. exact Hq.
  - intros H. exists (p + c). split; [lia | exact H].
Qed.

Lemma spanStart_fixed c timeRange now :
  Zoned.spanStart (fixedOffset c) timeRange now = spanStart timeRange (now + c) - c.
Proof.
  unfold Zoned.spanStart, spanStart. rewrite periods_fixed.
  pose proof (periods_length timeRange (now + c)) as L.
  destruct (periods timeRange (now + c)) as [|p l]; [|reflexivity].
  destruct timeRange; discriminate L.
Qed.

Lemma last_map_shift c (l : list Z) :
  l <> [] -> List.last (map (fun p => p - c) l) 0 = List.last l 0 - c.
Proof.
  induction l as [|a l IH]; [congruence|]. intros _.
  destruct l as [|b l]; [reflexivity|].
  change (List.last (map (fun p => p - c) (b :: l)) 0 = List.last (b :: l) 0 - c).
  apply IH. discriminate.
Qed.

Lemma periods_fixed_last c timeRange now :
  List.last (Zoned.periods (fixedOffset c) timeRange now) 0
  = List.last (periods timeRange (now + c)) 0 - c.
Proof.
  rewrite periods_fixed. apply last_map_shift.
  pose proof (periods_length timeRange (now + c)) as L.
  intros E. rewrite E in L. destruct timeRange; discriminate L.
Qed.

Lemma spanEnd_fixed c timeRange now :
  Zoned.spanEnd (fixedOffset c) timeRange now = spanEnd timeRange (now + c) - c.
Proof.
  unfold Zoned.spanEnd, spanEnd.
  rewrite periods_fixed_last, nextPeriod_fixed, Z.sub_add. reflexivity.
Qed.

(** ** Membership in a window's subset, for any zone *)

Lemma zoned_periodOrders_In z timeRange orders period o :
  In o (Zoned.periodOrders z timeRange orders period)
  <-> In o orders /\ period <= Order.createdAt o < Zoned.nextPeriod z timeRange period.
Proof. unfold Zoned.periodOrders. rewrite filter_In, inPeriod_iff. tauto. Qed.

Lemma zoned_periodReturns_In z timeRange returns period r :
  In r (Zoned.periodReturns z timeRange returns period)
  <-> In r returns /\ period <= Return.createdAt r < Zoned.nextPeriod z timeRange period.
Proof. unfold Zoned.periodReturns. rewrite filter_In, inPeriod_iff. tauto. Qed.

Lemma zoned_periodPurchases_In z timeRange accounts period a :
  In a (Zoned.periodPurchases z timeRange accounts period)
  <-> In a accounts /\ Account.transactionType a = purchase
      /\ period <= Account.transactionDate a < Zoned.nextPeriod z timeRange period.
Proof.
  unfold Zoned.periodPurchases. rewrite filter_In, andb_true_iff, inPeriod_iff.
  assert (E : TransactionType_eqb (Account.transactionType a) purchase = true
              <-> Account.transactionType a = purchase)
    by (destruct (Account.transactionType a); cbn; split; congruence).
  rewrite E. tauto.
Qed.

(** ** Windows of a run in a zone with one offset *)

Lemma fixed_span_unique_window c timeRange now t :
  Zoned.spanStart (fixedOffset c) timeRange now <= t
    < Zoned.spanEnd (fixedOffset c) timeRange now ->
  exists! i : nat, exists p, Zoned.periods (fixedOffset c) timeRange now !! i = Some p
                             /\ p <= t < Zoned.nextPeriod (fixedOffset c) timeRange p.
Proof.
  rewrite spanStart_fixed, spanEnd_fixed. intros Ht.
  destruct (span_unique_window timeRange (now + c) (t + c) ltac:(lia))
    as (i & (p & Hp & Hin) & Hu).
  exists i. split.
  - exists (p - c). split.
    + apply periods_fixed_lookup. rewrite Z.sub_add. exact Hp.
    + rewrite nextPeriod_fixed, Z.sub_add. lia.
  - intros j (q & Hq & Hj). apply Hu. exists (q + c). split.
    + apply periods_fixed_lookup. exact Hq.
    + rewrite nextPeriod_fixed in Hj. lia.
Qed.

Lemma fixed_periods_consecutive c timeRange now i p q :
  Zoned.periods (fixedOffset c) timeRange now !! i = Some p ->
  Zoned.periods (fixedOffset c) timeRange now !! S i = Some q ->
  Zoned.nextPeriod (fixedOffset c) timeRange p = q /\ p < q.
Proof.
  intros Hp Hq. apply periods_fixed_lookup in Hp, Hq.
  destruct (periods_consecutive timeRange (now + c) i _ _ Hp Hq) as [E L].
  rewrite nextPeriod_fixed. lia.
Qed.

Lemma fixed_periods_ordered c timeRange now i j p q :
  (i < j)%nat ->
  Zoned.periods (fixedOffset c) timeRange now !! i = Some p ->
  Zoned.periods (fixedOffset c) timeRange now !! j = Some q ->
  Zoned.nextPeriod (fixedOffset c) timeRange p <= q.
Proof.
  intros Hij Hp Hq. apply periods_fixed_lookup in Hp, Hq.
  pose proof (periods_ordered timeRange (now + c) i j _ _ Hij Hp Hq).
  rewrite nextPeriod_fixed. lia.
Qed.

Lemma sorted_map_shift c (l : list Z) :
  StronglySorted Z.lt l -> StronglySorted Z.lt (map (fun p => p - c) l).
Proof.
  induction 1 as [|a l Hs IH Ha]; cbn [map]; constructor; [exact IH|].
  rewrite List.Forall_forall in *. intros x Hx.
  apply in_map_iff in Hx as (y & <- & Hy). specialize (Ha y Hy). lia.
Qed.

Lemma fixed_periods_sorted c timeRange now :
  StronglySorted Z.lt (Zoned.periods (fixedOffset c) timeRange now).
Proof. rewrite periods_fixed. apply sorted_map_shift, periods_sorted. Qed.

Lemma zoned_periods_length z timeRange now :
  length (Zoned.periods z timeRange now) = windowCount timeRange.
Proof. destruct timeRange; unfold Zoned.periods; rewrite length_map; reflexivity. Qed.

(* ================================================================== *)
(** * Partition, generation and contiguity of the windows             *)
(* ================================================================== *)









(** C10.  An order, return or ledger row dated before the start of the
    earliest window or at or after the end of the latest one changes no row
    of the result and no summary statistic: the run gives the same output
    with or without it. *)
Theorem C10_outside_span_ignored (now : Z) (timeRange : TimeRange)
    (productMap : gmap string Product.t) (products : list Product.t) :
  let outside t := t < spanStart timeRange now \/ spanEnd timeRange now <= t in
  (forall o orders1 orders2 returns accounts,
     outside (Order.createdAt o) ->
     profitData now timeRange productMap (orders1 ++ o :: orders2) returns accounts
     = profitData now timeRange productMap (orders1 ++ orders2) returns accounts
     /\ statistics
          (profitData now timeRange productMap (orders1 ++ o :: orders2) returns accounts)
          products
        = statistics
            (profitData now timeRange productMap (orders1 ++ orders2) returns accounts)
            products) /\
  (forall r orders returns1 returns2 accounts,
     outside (Return.createdAt r) ->
     profitData now timeRange productMap orders (returns1 ++ r :: returns2) accounts
     = profitData now timeRange productMap orders (returns1 ++ returns2) accounts
     /\ statistics
          (profitData now timeRange productMap orders (returns1 ++ r :: returns2) accounts)
          products
        = statistics
            (profitData now timeRange productMap orders (returns1 ++ returns2) accounts)
            products) /\
  (forall a orders returns accounts1 accounts2,
     outside (Account.transactionDate a) ->
     profitData now timeRange productMap orders returns (accounts1 ++ a :: accounts2)
     = profitData now timeRange productMap orders returns (accounts1 ++ accounts2)
     /\ statistics
          (profitData now timeRange productMap orders returns (accounts1 ++ a :: accounts2))
          products
        = statistics
            (profitData now timeRange productMap orders returns (accounts1 ++ accounts2))
            products).
Proof.
  cbv zeta.
  assert (HO : forall o orders1 orders2 returns accounts,
             Order.createdAt o < spanStart timeRange now
             \/ spanEnd timeRange now <= Order.createdAt o ->
             profitData now timeRange productMap (orders1 ++ o :: orders2) returns accounts
             = profitData now timeRange productMap (orders1 ++ orders2) returns accounts).
  { intros o orders1 orders2 returns accounts Ht. unfold profitData.
    apply map_ext_in. intros p Hp. unfold periodRow, periodLocals, periodOrders.
    rewrite filter_remove by (apply (outside_not_inPeriod timeRange now); assumption).
    reflexivity. }
  assert (HR : forall r orders returns1 returns2 accounts,
             Return.createdAt r < spanStart timeRange now
             \/ spanEnd timeRange now <= Return.createdAt r ->
             profitData now timeRange productMap orders (returns1 ++ r :: returns2) accounts
             = profitData now timeRange productMap orders (returns1 ++ returns2) accounts).
  { intros r orders returns1 returns2 accounts Ht. unfold profitData.
    apply map_ext_in. intros p Hp. unfold periodRow, periodLocals, periodReturns.
    rewrite filter_remove by (apply (outside_not_inPeriod timeRange now); assumption).
    reflexivity. }
  assert (HA : forall a orders returns accounts1 accounts2,
             Account.transactionDate a < spanStart timeRange now
             \/ spanEnd timeRange now <= Account.transactionDate a ->
             profitData now timeRange productMap orders returns (accounts1 ++ a :: accounts2)
             = profitData now timeRange productMap orders returns (accounts1 ++ accounts2)).
  { intros a orders returns accounts1 accounts2 Ht. unfold profitData.
    apply map_ext_in. intros p Hp. unfold periodRow, periodLocals, periodPurchases.
    rewrite filter_remove; [reflexivity|].
    rewrite (outside_not_inPeriod timeRange now) by assumption.
    apply andb_false_r. }
  repeat apply conj.
  - intros o orders1 orders2 returns accounts Ht.
    rewrite (HO o orders1 orders2 returns accounts Ht). split; reflexivity.
  - intros r orders returns1 returns2 accounts Ht.
    rewrite (HR r orders returns1 returns2 accounts Ht). split; reflexivity.
  - intros a orders returns accounts1 accounts2 Ht.
    rewrite (HA a orders returns accounts1 accounts2 Ht). split; reflexivity.
Qed.

Lemma C10_outside_span_ignored_witness :
  profitData 86400000000 daily ∅ ([] ++ scenarioOrder :: []) [] []
  = profitData 86400000000 daily ∅ ([] ++ []) [] [].
Proof.
  destruct (C10_outside_span_ignored 86400000000 daily ∅ []) as (H & _).
  apply H. left. vm_compute. reflexivity.
Defined.

(* ================================================================== *)
(** * Further properties of the modelled code                          *)
(* ================================================================== *)

(** ** The product map *)

(** X1.  Among products that share an id the last one of the list is the
    one the map returns; an id carried by no product is absent. *)
Theorem productMap_last_wins (products1 products2 : list Product.t) (p : Product.t) :
  (forall q, In q products2 -> Product.id q <> Product.id p) ->
  productMap (products1 ++ p :: products2) !! Product.id p = Some p.
Proof.
  intros H. rewrite productMap_lookup, rev_app_distr. cbn [List.rev].
  rewrite <- app_assoc, find_append.
  destruct (List.find _ (List.rev products2)) as [q|] eqn:E.
  - apply find_some in E as [Hin Heq]. apply String.eqb_eq in Heq.
    apply in_rev in Hin. exfalso. exact (H q Hin Heq).
  - cbn [app List.find]. rewrite String.eqb_refl. reflexivity.
Qed.

Lemma productMap_last_wins_witness :
  productMap ([Product.mk "X" (Some 10%Q) 5] ++ Product.mk "X" None 7 :: [])
    !! "X"%string
  = Some (Product.mk "X" None 7).
Proof.
  apply (productMap_last_wins [Product.mk "X" (Some 10%Q) 5] [] (Product.mk "X" None 7)).
  intros q [].
Defined.

(** ** Sign of the row fields *)

Lemma periodLocals_nonneg timeRange productMap orders returns accounts period :
  let l := periodLocals timeRange productMap orders returns accounts period in
  (0 <= Locals.purchaseProfit l /\ 0 <= Locals.purchaseLoss l /\
   0 <= Locals.salesProfit l /\ 0 <= Locals.salesLoss l /\
   0 <= Locals.totalProfit l /\ 0 <= Locals.totalLoss l)%Q.
Proof.
  destruct (periodLocals_unfold timeRange productMap orders returns accounts period)
    as (Hpp & Hpl & Hsp & Hsl & Htp & Htl & _).
  cbv zeta in *. rewrite Hpp, Hpl, Hsp, Hsl, Htp, Htl.
  destruct (purchaseTotals_nonneg (periodPurchases timeRange accounts period)) as [P1 P2].
  match goal with
  | |- context [fst (if Qltb 0 ?net then _ else if Qltb ?net 0 then _ else
                       if Qltb 0 ?gross then _ else _)] =>
      pose proof (Qabs_nonneg net); pose proof (Qabs_nonneg gross);
      destruct (Qltb 0 net) eqn:E1; [apply Qltb_lt in E1|];
      [|destruct (Qltb net 0) eqn:E2;
        [|destruct (Qltb 0 gross) eqn:E3; [apply Qltb_lt in E3|];
          [|destruct (Qltb gross 0) eqn:E4]]]
  end; cbn [fst snd]; repeat split; lra.
Qed.

(** X2.  The six profit and loss fields of every row are non-negative (only
    revenue and cost can be negative). *)
Theorem row_profit_loss_nonneg timeRange productMap orders returns accounts period :
  let r := periodRow timeRange productMap orders returns accounts period in
  (0 <= ProfitData.purchaseProfit r /\ 0 <= ProfitData.purchaseLoss r /\
   0 <= ProfitData.salesProfit r /\ 0 <= ProfitData.salesLoss r /\
   0 <= ProfitData.totalProfit r /\ 0 <= ProfitData.totalLoss r)%Q.
Proof.
  destruct (periodLocals_nonneg timeRange productMap orders returns accounts period)
    as (H1 & H2 & H3 & H4 & H5 & H6).
  cbv zeta in *. unfold periodRow.
  cbn [ProfitData.purchaseProfit ProfitData.purchaseLoss ProfitData.salesProfit
       ProfitData.salesLoss ProfitData.totalProfit ProfitData.totalLoss].
  repeat split; apply toFixed2_nonneg; assumption.
Qed.

(** ** The purchase side *)

Lemma filter_filter_and {A : Type} (g h : A -> bool) (l : list A) :
  List.filter (fun a => g a && h a) (List.filter g l) = List.filter (fun a => g a && h a) l.
Proof.
  induction l as [|a l IH]; [reflexivity|].
  cbn [List.filter]. destruct (g a) eqn:E.
  - cbn [List.filter]. rewrite E, IH. reflexivity.
  - cbn [andb]. exact IH.
Qed.

(** X5.  Ledger rows whose transaction type is not purchase (sale, return,
    refund, adjustment) never reach the result: the run is the same on the
    purchase rows alone. *)
Theorem non_purchase_rows_ignored now timeRange productMap orders returns accounts :
  profitData now timeRange productMap orders returns accounts
  = profitData now timeRange productMap orders returns
      (List.filter (fun a => TransactionType_eqb (Account.transactionType a) purchase)
                   accounts).
Proof.
  unfold profitData. apply map_ext. intros p.
  unfold periodRow, periodLocals, periodPurchases.
  rewrite (filter_filter_and
             (fun a => TransactionType_eqb (Account.transactionType a) purchase)
             (fun a => inPeriod p (nextPeriod timeRange p) (Account.transactionDate a))).
  reflexivity.
Qed.

(** ** The sales side *)

(** X6.  With net the net sales difference of the window (revenue minus
    refunds minus COGS plus returned cost): if net > 0 the row has
    salesProfit = round(net) and salesLoss = 0; if net < 0 it has
    salesProfit = 0 and salesLoss = round(-net); and whenever no return
    falls in the window, salesProfit - salesLoss before rounding is the
    gross difference revenue - COGS. *)
Theorem sales_split_follows_net timeRange productMap orders returns accounts period :
  let l := periodLocals timeRange productMap orders returns accounts period in
  let r := periodRow timeRange productMap orders returns accounts period in
  let net := Locals.netSalesDifference l in
  ((0 < net)%Q ->
   ProfitData.salesProfit r = toFixed2 net /\ ProfitData.salesLoss r = toFixed2 0) /\
  ((net < 0)%Q ->
   ProfitData.salesProfit r = toFixed2 0 /\ ProfitData.salesLoss r = toFixed2 (Qabs net)
   /\ (Qabs net == - net)%Q) /\
  (periodReturns timeRange returns period = [] ->
   (Locals.salesProfit l - Locals.salesLoss l
    == revenueOf (periodOrders timeRange orders period)
       - cogsOf productMap (periodOrders timeRange orders period))%Q).
Proof.
  cbv zeta.
  destruct (periodLocals_unfold timeRange productMap orders returns accounts period)
    as (_ & _ & Hsp & Hsl & _ & _ & _ & _ & Hnet & _).
  cbv zeta in *. unfold periodRow. cbn [ProfitData.salesProfit ProfitData.salesLoss].
  rewrite Hsp, Hsl, Hnet. repeat apply conj.
  - intros H. apply Qltb_lt in H. rewrite H. split; reflexivity.
  - intros H.
    assert (E1 : Qltb 0 (revenueOf (periodOrders timeRange orders period)
                         - refundAmountOf (periodReturns timeRange returns period)
                         - (cogsOf productMap (periodOrders timeRange orders period)
                            - returnedCostOf productMap
                                (periodReturns timeRange returns period))) = false)
      by (apply Qltb_ge; lra).
    pose proof H as H'. apply Qltb_lt in H. rewrite E1, H.
    repeat split. apply Qabs_neg. lra.
  - intros E. rewrite E. unfold refundAmountOf, returnedCostOf. cbn [fold_left].
    set (rev := revenueOf _). set (cg := cogsOf _ _).
    assert (N : (rev - 0 - (cg - 0) == rev - cg)%Q) by ring.
    destruct (Qltb 0 (rev - 0 - (cg - 0))) eqn:E1; [cbn [fst snd]; ring|].
    destruct (Qltb (rev - 0 - (cg - 0)) 0) eqn:E2.
    + apply Qltb_lt in E2. cbn [fst snd]. rewrite Qabs_neg by lra. ring.
    + apply Qltb_ge in E1, E2.
      destruct (Qltb 0 (rev - cg)) eqn:E3; [apply Qltb_lt in E3; lra|].
      destruct (Qltb (rev - cg) 0) eqn:E4; [apply Qltb_lt in E4; lra|].
      cbn [fst snd]. lra.
Qed.

Lemma sales_split_follows_net_witness :
  let r := periodRow daily (productMap scenarioProducts) [scenarioOrder] [] [] 0 in
  ProfitData.salesProfit r = toFixed2 80 /\ ProfitData.salesLoss r = toFixed2 0.
Proof.
  destruct (sales_split_follows_net daily (productMap scenarioProducts)
              [scenarioOrder] [] [] 0) as (H & _).
  cbv zeta in H. destruct H as [H1 H2]; [vm_compute; reflexivity|].
  split; [rewrite H1; vm_compute; reflexivity | exact H2].
Defined.

(** ** Runs without activity *)

Lemma sumZ_shift {A : Type} (f : A -> Z) (l : list A) (a : Z) :
  fold_left (fun sum d => sum + f d) l a = a + sumZ f l.
Proof.
  unfold sumZ. revert a. induction l as [|x l IH]; intros a; cbn [fold_left]; [lia|].
  rewrite (IH (a + f x)), (IH (0 + f x)). lia.
Qed.

Lemma sumZ_cons {A : Type} (f : A -> Z) (x : A) (l : list A) :
  sumZ f (x :: l) = f x + sumZ f l.
Proof. unfold sumZ at 1. cbn [fold_left]. rewrite sumZ_shift. lia. Qed.

Lemma sumZ_map {A B : Type} (g : A -> B) (f : B -> Z) (l : list A) :
  sumZ f (map g l) = sumZ (fun x => f (g x)) l.
Proof.
  induction l as [|x l IH]; [reflexivity|].
  cbn [map]. rewrite !sumZ_cons, IH. reflexivity.
Qed.

Lemma sumQ_shift {A : Type} (f : A -> Q) (l : list A) (a : Q) :
  (fold_left (fun sum d => sum + f d) l a == a + sumQ f l)%Q.
Proof.
  unfold sumQ. revert a. induction l as [|x l IH]; intros a; cbn [fold_left]; [ring|].
  rewrite (IH (a + f x)%Q), (IH (0 + f x)%Q). ring.
Qed.

Lemma sumQ_cons {A : Type} (f : A -> Q) (x : A) (l : list A) :
  (sumQ f (x :: l) == f x + sumQ f l)%Q.
Proof. unfold sumQ at 1. cbn [fold_left]. rewrite sumQ_shift. ring. Qed.

Lemma sumQ_zero {A : Type} (f : A -> Q) (l : list A) :
  (forall x, In x l -> (f x == 0)%Q) -> (sumQ f l == 0)%Q.
Proof. intros H. unfold sumQ. apply fold_left_sum_zero. exact H. Qed.

Lemma sumZ_zero {A : Type} (f : A -> Z) (l : list A) :
  (forall x, In x l -> f x = 0) -> sumZ f l = 0.
Proof.
  induction l as [|x l IH]; intros H; [reflexivity|].
  rewrite sumZ_cons, IH, (H x) by (try (left; reflexivity); intros; apply H; right; assumption).
  reflexivity.
Qed.

(** X7.  With no orders, no returns and no ledger rows, a run still yields
    one row per window, every monetary field and count of every row is 0,
    and the summary has net profit 0, total revenue 0, profit margin 0 (the
    revenue guard) and return rate 0 (the order-count guard). *)
Theorem empty_run_is_all_zero now timeRange productMap products :
  let rows := profitData now timeRange productMap [] [] [] in
  let s := statistics rows products in
  length rows = windowCount timeRange /\
  Forall (fun r => (ProfitData.purchaseProfit r == 0 /\ ProfitData.purchaseLoss r == 0 /\
                    ProfitData.salesProfit r == 0 /\ ProfitData.salesLoss r == 0 /\
                    ProfitData.totalProfit r == 0 /\ ProfitData.totalLoss r == 0 /\
                    ProfitData.revenue r == 0 /\ ProfitData.cost r == 0)%Q /\
                   ProfitData.orders r = 0 /\ ProfitData.returns r = 0) rows /\
  (Statistics.netProfit s == 0)%Q /\ (Statistics.totalRevenue s == 0)%Q /\
  Statistics.profitMargin s = 0%Q /\
  Statistics.totalOrders s = 0 /\ Statistics.totalReturns s = 0 /\
  Statistics.returnRate s = 0%Q.
Proof.
  cbv zeta.
  assert (R : Forall (fun r => (ProfitData.purchaseProfit r == 0 /\ ProfitData.purchaseLoss r == 0 /\
                    ProfitData.salesProfit r == 0 /\ ProfitData.salesLoss r == 0 /\
                    ProfitData.totalProfit r == 0 /\ ProfitData.totalLoss r == 0 /\
                    ProfitData.revenue r == 0 /\ ProfitData.cost r == 0)%Q /\
                   ProfitData.orders r = 0 /\ ProfitData.returns r = 0)
                (profitData now timeRange productMap [] [] [])).
  { rewrite List.Forall_forall. intros r Hr. unfold profitData in Hr.
    apply in_map_iff in Hr as (p & <- & _).
    lazy. repeat split; reflexivity. }
  pose proof R as R'. rewrite List.Forall_forall in R'.
  assert (Zrev : (sumQ ProfitData.revenue (profitData now timeRange productMap [] [] []) == 0)%Q)
    by (apply sumQ_zero; intros r Hr; apply (R' r Hr)).
  assert (Zord : sumZ ProfitData.orders (profitData now timeRange productMap [] [] []) = 0)
    by (apply sumZ_zero; intros r Hr; apply (R' r Hr)).
  assert (Zret : sumZ ProfitData.returns (profitData now timeRange productMap [] [] []) = 0)
    by (apply sumZ_zero; intros r Hr; apply (R' r Hr)).
  split; [unfold profitData; rewrite length_map; apply periods_length|].
  split; [exact R|].
  unfold statistics.
  cbn [Statistics.netProfit Statistics.totalRevenue Statistics.profitMargin
       Statistics.totalOrders Statistics.totalReturns Statistics.returnRate].
  repeat apply conj.
  - rewrite !sumQ_zero by (intros r Hr; apply (R' r Hr)). ring.
  - exact Zrev.
  - destruct (Qltb 0 _) eqn:E; [|reflexivity]. apply Qltb_lt in E. lra.
  - exact Zord.
  - exact Zret.
  - rewrite Zord. reflexivity.
Qed.

(** ** Counting over the windows *)

Lemma filter_map_swap {A B : Type} (f : B -> bool) (g : A -> B) (l : list A) :
  List.filter f (map g l) = map g (List.filter (fun x => f (g x)) l).
Proof.
  induction l as [|x l IH]; [reflexivity|].
  cbn [map List.filter]. destruct (f (g x)); cbn [map]; rewrite IH; reflexivity.
Qed.

Lemma countdown_window_count (b : Z -> Z) (t : Z) (m : nat) :
  (forall k, b k < b (k + 1)) ->
  length (List.filter (fun i => inPeriod (b (- i)) (b (- i + 1)) t) (countdown m))
  = if inPeriod (b (- Z.of_nat m)) (b 1) t then 1%nat else 0%nat.
Proof.
  intros Hb.
  assert (Hmono : forall n : nat, b (- Z.of_nat n) <= b 0).
  { induction n as [|n IH]; [apply Z.le_refl|].
    pose proof (Hb (- Z.of_nat (S n))).
    replace (- Z.of_nat (S n) + 1) with (- Z.of_nat n) in * by lia. lia. }
  induction m as [|m IH].
  - cbn [countdown List.filter]. change (- 0 + 1) with 1. change (- Z.of_nat 0) with 0.
    change (- 0) with 0. destruct (inPeriod (b 0) (b 1) t); reflexivity.
  - change (countdown (S m)) with (Z.of_nat (S m) :: countdown m).
    cbn [List.filter].
    replace (- Z.of_nat (S m) + 1) with (- Z.of_nat m) by lia.
    pose proof (Hb (- Z.of_nat (S m))) as L.
    replace (- Z.of_nat (S m) + 1) with (- Z.of_nat m) in L by lia.
    pose proof (Hmono m) as M. pose proof (Hb 0) as L0. change (0 + 1) with 1 in L0.
    destruct (inPeriod (b (- Z.of_nat (S m))) (b (- Z.of_nat m)) t) eqn:E1;
      cbn [length]; rewrite IH;
      destruct (inPeriod (b (- Z.of_nat m)) (b 1) t) eqn:E2;
      destruct (inPeriod (b (- Z.of_nat (S m))) (b 1) t) eqn:E3;
      try reflexivity;
      repeat match goal with
             | H : inPeriod _ _ _ = true |- _ => apply inPeriod_iff in H
             | H : inPeriod _ _ _ = false |- _ =>
                 apply not_true_iff_false in H; rewrite inPeriod_iff in H
             end; lia.
Qed.

(** The number of generated windows that contain an instant: one inside the
    span, none outside. *)
Lemma windows_containing timeRange now t :
  length (List.filter (fun p => inPeriod p (nextPeriod timeRange p) t) (periods timeRange now))
  = if inSpan timeRange now t then 1%nat else 0%nat.
Proof.
  unfold inSpan. rewrite spanStart_eq, spanEnd_eq, periods_boundary, filter_map_swap, length_map.
  rewrite (List.filter_ext _ (fun i => inPeriod (boundary timeRange now (- i))
                                 (boundary timeRange now (- i + 1)) t))
    by (intros i; rewrite nextPeriod_boundary; reflexivity).
  rewrite (countdown_window_count (boundary timeRange now) t)
    by (intros k; apply boundary_lt).
  replace (- Z.of_nat (windowCount timeRange - 1)) with (1 - Z.of_nat (windowCount timeRange))
    by (destruct timeRange; cbn; lia).
  reflexivity.
Qed.

Lemma sumZ_indicator {A : Type} (f : A -> bool) (l : list A) :
  sumZ (fun x => if f x then 1 else 0) l = Z.of_nat (length (List.filter f l)).
Proof.
  induction l as [|x l IH]; [reflexivity|].
  rewrite sumZ_cons, IH. cbn [List.filter]. destruct (f x); cbn [length]; lia.
Qed.

Lemma sumZ_ext {A : Type} (f g : A -> Z) (l : list A) :
  (forall x, f x = g x) -> sumZ f l = sumZ g l.
Proof.
  intros H. induction l as [|x l IH]; [reflexivity|]. rewrite !sumZ_cons, IH, H. reflexivity.
Qed.

Lemma sumZ_plus {A : Type} (f g : A -> Z) (l : list A) :
  sumZ (fun x => f x + g x) l = sumZ f l + sumZ g l.
Proof.
  induction l as [|x l IH]; [reflexivity|]. rewrite !sumZ_cons, IH. lia.
Qed.

(** Summing, over the windows, the number of instants of a list that fall
    in each window counts the instants inside the span once each. *)
Lemma window_counts_sum timeRange now {A : Type} (time : A -> Z) (l : list A) :
  sumZ (fun p => Z.of_nat (length (List.filter
                                     (fun x => inPeriod p (nextPeriod timeRange p) (time x)) l)))
       (periods timeRange now)
  = Z.of_nat (length (List.filter (fun x => inSpan timeRange now (time x)) l)).
Proof.
  induction l as [|x l IH].
  - cbn [List.filter length]. apply sumZ_zero. reflexivity.
  - cbn [List.filter].
    assert (E : forall p,
               Z.of_nat (length (if inPeriod p (nextPeriod timeRange p) (time x)
                                 then x :: List.filter
                                             (fun x0 => inPeriod p (nextPeriod timeRange p) (time x0)) l
                                 else List.filter
                                        (fun x0 => inPeriod p (nextPeriod timeRange p) (time x0)) l))
               = (if inPeriod p (nextPeriod timeRange p) (time x) then 1 else 0)
                 + Z.of_nat (length (List.filter
                                       (fun x0 => inPeriod p (nextPeriod timeRange p) (time x0)) l)))
      by (intros p; destruct (inPeriod p _ _); cbn [length]; lia).
    rewrite (sumZ_ext _ _ _ E), sumZ_plus, IH, sumZ_indicator, windows_containing.
    destruct (inSpan timeRange now (time x)); cbn [length]; lia.
Qed.

(** X8.  In a zone with a fixed UTC offset (time values read as local
    time), the summary counts every order and every return dated inside the
    span of the run exactly once: totalOrders is the number of orders with
    spanStart <= createdAt < spanEnd, and totalReturns likewise. *)
Theorem totals_count_records_in_span now timeRange productMap orders returns accounts products :
  let s := statistics (profitData now timeRange productMap orders returns accounts) products in
  Statistics.totalOrders s
  = Z.of_nat (length (List.filter (fun o => inSpan timeRange now (Order.createdAt o)) orders))
  /\
  Statistics.totalReturns s
  = Z.of_nat (length (List.filter (fun r => inSpan timeRange now (Return.createdAt r)) returns)).
Proof.
  cbv zeta. unfold statistics. cbn [Statistics.totalOrders Statistics.totalReturns].
  unfold profitData. rewrite !sumZ_map. split.
  - rewrite <- (window_counts_sum timeRange now Order.createdAt orders).
    apply sumZ_ext. intros p. unfold periodRow. cbn [ProfitData.orders].
    destruct (periodLocals_unfold timeRange productMap orders returns accounts p)
      as (_ & _ & _ & _ & _ & _ & _ & _ & _ & Ho & _).
    cbv zeta in Ho. rewrite Ho. reflexivity.
  - rewrite <- (window_counts_sum timeRange now Return.createdAt returns).
    apply sumZ_ext. intros p. unfold periodRow. cbn [ProfitData.returns].
    destruct (periodLocals_unfold timeRange productMap orders returns accounts p)
      as (_ & _ & _ & _ & _ & _ & _ & _ & _ & _ & Hr).
    cbv zeta in Hr. rewrite Hr. reflexivity.
Qed.

(** ** Extent of a run *)

Lemma monthStart_year k :
  monthStart (k + 12) = monthStart k + (if isLeap (k / 12 - carry (k mod 12 + 1) + 1)
                                        then 366 else 365).
Proof.
  unfold monthStart.
  replace ((k + 12) / 12) with (k / 12 + 1) by lia.
  replace ((k + 12) mod 12) with (k mod 12) by lia.
  rewrite !dfc_split.
  pose proof (yearDays_succ (k / 12 - carry (k mod 12 + 1))) as S.
  replace (k / 12 + 1 - carry (k mod 12 + 1)) with (k / 12 - carry (k mod 12 + 1) + 1) by lia.
  lia.
Qed.

(** X9.  The windows of a run cover, without gap, a span that contains the
    reference instant: exactly 24 hours for hourly, exactly 30 days for
    daily, 365 or 366 days for monthly, and between 1825 and 1827 days for
    yearly. *)
Theorem span_extent (now : Z) :
  (forall timeRange, spanStart timeRange now <= now < spanEnd timeRange now) /\
  spanEnd hourly now - spanStart hourly now = 24 * msPerHour /\
  spanEnd daily now - spanStart daily now = 30 * msPerDay /\
  (spanEnd monthly now - spanStart monthly now = 365 * msPerDay
   \/ spanEnd monthly now - spanStart monthly now = 366 * msPerDay) /\
  1825 * msPerDay <= spanEnd yearly now - spanStart yearly now <= 1827 * msPerDay.
Proof.
  split; [|split; [|split; [|split]]].
  - intros timeRange. rewrite spanStart_eq, spanEnd_eq.
    pose proof (boundary_now timeRange now).
    assert (W : 1 - Z.of_nat (windowCount timeRange) <= 0) by (destruct timeRange; cbn; lia).
    pose proof (boundary_mono timeRange now (1 - Z.of_nat (windowCount timeRange)) 0 W).
    lia.
  - rewrite spanStart_eq, spanEnd_eq. unfold boundary, windowCount, msPerHour. lia.
  - rewrite spanStart_eq, spanEnd_eq. unfold boundary, windowCount, msPerDay. lia.
  - rewrite spanStart_eq, spanEnd_eq. unfold boundary, windowCount.
    pose proof (monthStart_year (monthIndex now + (1 - Z.of_nat 12))) as Y.
    replace (monthIndex now + (1 - Z.of_nat 12) + 12) with (monthIndex now + 1) in Y by lia.
    rewrite Y. destruct (isLeap _); [right | left]; lia.
  - rewrite spanStart_eq, spanEnd_eq. unfold boundary, windowCount.
    set (y := YearFromTime now).
    replace (y + (1 - Z.of_nat 5)) with (y - 4) by lia.
    pose proof (yearStart_succ (y - 4)) as Y1. pose proof (yearStart_succ (y - 3)) as Y2.
    pose proof (yearStart_succ (y - 2)) as Y3. pose proof (yearStart_succ (y - 1)) as Y4.
    pose proof (yearStart_succ y) as Y5.
    replace (y - 4 + 1) with (y - 3) in Y1 by lia.
    replace (y - 3 + 1) with (y - 2) in Y2 by lia.
    replace (y - 2 + 1) with (y - 1) in Y3 by lia.
    replace (y - 1 + 1) with y in Y4 by lia.
    assert (L : isLeap (y - 4) = true -> isLeap (y - 3) = false /\ isLeap (y - 2) = false
                                         /\ isLeap (y - 1) = false).
    { unfold isLeap. intros H. repeat split; split_tests; cbn in *; try congruence;
        revert H; split_tests; cbn; congruence. }
    assert (L2 : isLeap (y - 3) = true -> isLeap (y - 2) = false /\ isLeap (y - 1) = false
                                          /\ isLeap y = false).
    { unfold isLeap. intros H. repeat split; split_tests; cbn in *; try congruence;
        revert H; split_tests; cbn; congruence. }
    assert (L3 : isLeap (y - 2) = true -> isLeap (y - 1) = false /\ isLeap y = false).
    { unfold isLeap. intros H. repeat split; split_tests; cbn in *; try congruence;
        revert H; split_tests; cbn; congruence. }
    assert (L4 : isLeap (y - 1) = true -> isLeap y = false).
    { unfold isLeap. intros H. split_tests; cbn in *; try congruence;
        revert H; split_tests; cbn; congruence. }
    unfold msPerDay.
    destruct (isLeap (y - 4)) eqn:E4; destruct (isLeap (y - 3)) eqn:E3;
      destruct (isLeap (y - 2)) eqn:E2; destruct (isLeap (y - 1)) eqn:E1;
      destruct (isLeap y) eqn:E0;
      try (destruct (L eq_refl) as (? & ? & ?); congruence);
      try (destruct (L2 eq_refl) as (? & ? & ?); congruence);
      try (destruct (L3 eq_refl) as (? & ?); congruence);
      try (pose proof (L4 eq_refl); congruence);
      lia.
Qed.

Lemma boundary_hourly now k : boundary hourly now k = (now / msPerHour + k) * msPerHour.
Proof. reflexivity. Qed.

Lemma boundary_daily now k : boundary daily now k = (Day now + k) * msPerDay.
Proof. reflexivity. Qed.

Lemma boundary_monthly now k :
  boundary monthly now k = monthStart (monthIndex now + k) * msPerDay.
Proof. reflexivity. Qed.

Lemma boundary_yearly now k :
  boundary yearly now k = monthStart (12 * (YearFromTime now + k)) * msPerDay.
Proof. reflexivity. Qed.

Lemma monthStart_between k1 k2 t :
  monthStart k1 * msPerDay <= t < monthStart (k1 + 1) * msPerDay ->
  monthStart k2 * msPerDay <= t < monthStart (k2 + 1) * msPerDay ->
  k1 = k2.
Proof.
  intros H1 H2.
  destruct (Z.lt_trichotomy k1 k2) as [L|[L|L]]; [|exact L|].
  - pose proof (monthStart_mono (k1 + 1) k2 ltac:(lia)). unfold msPerDay in *. lia.
  - pose proof (monthStart_mono (k2 + 1) k1 ltac:(lia)). unfold msPerDay in *. lia.
Qed.

Lemma yearStart_between y1 y2 t :
  monthStart (12 * y1) * msPerDay <= t < monthStart (12 * (y1 + 1)) * msPerDay ->
  monthStart (12 * y2) * msPerDay <= t < monthStart (12 * (y2 + 1)) * msPerDay ->
  y1 = y2.
Proof.
  intros H1 H2.
  destruct (Z.lt_trichotomy y1 y2) as [L|[L|L]]; [|exact L|].
  - pose proof (monthStart_mono (12 * (y1 + 1)) (12 * y2) ltac:(lia)).
    unfold msPerDay in *. lia.
  - pose proof (monthStart_mono (12 * (y2 + 1)) (12 * y1) ltac:(lia)).
    unfold msPerDay in *. lia.
Qed.

Lemma boundary_same_unit timeRange now1 now2 :
  boundary timeRange now1 0 <= now2 < boundary timeRange now1 1 ->
  forall k, boundary timeRange now2 k = boundary timeRange now1 k.
Proof.
  intros H k. pose proof (boundary_now timeRange now2) as B2.
  destruct timeRange.
  - rewrite !boundary_hourly in *.
    assert (now2 / msPerHour = now1 / msPerHour) by (unfold msPerHour in *; lia).
    congruence.
  - rewrite !boundary_daily in *.
    assert (Day now2 = Day now1) by (unfold Day, msPerDay in *; lia).
    congruence.
  - rewrite !boundary_monthly in *.
    replace (monthIndex now1 + 0) with (monthIndex now1) in H by lia.
    replace (monthIndex now2 + 0) with (monthIndex now2) in B2 by lia.
    rewrite (monthStart_between _ _ _ H B2). reflexivity.
  - rewrite !boundary_yearly in *.
    replace (YearFromTime now1 + 0) with (YearFromTime now1) in H by lia.
    replace (YearFromTime now2 + 0) with (YearFromTime now2) in B2 by lia.
    rewrite (yearStart_between _ _ _ H B2). reflexivity.
Qed.

(** X10.  In a zone with a fixed UTC offset (time values read as local
    time), the windows depend on the reference instant only through the
    hour, day, month or year that contains it: any reference instant inside
    the last window of a run generates the same windows and labels. *)
Theorem periods_stable_within_unit timeRange now1 now2 :
  List.last (periods timeRange now1) 0 <= now2
  < nextPeriod timeRange (List.last (periods timeRange now1) 0) ->
  periods timeRange now2 = periods timeRange now1
  /\ labels timeRange now2 = labels timeRange now1.
Proof.
  rewrite periods_last, nextPeriod_boundary. intros H.
  assert (P : periods timeRange now2 = periods timeRange now1).
  { rewrite !periods_boundary. apply map_ext. intros i.
    apply boundary_same_unit. exact H. }
  split; [exact P|]. unfold labels. rewrite P. reflexivity.
Qed.

Lemma periods_stable_within_unit_witness :
  periods monthly 1730505600000 = periods monthly 1730419200000
  /\ labels monthly 1730505600000 = labels monthly 1730419200000.
Proof.
  apply (periods_stable_within_unit monthly 1730419200000 1730505600000).
  vm_compute. split; [intros E; discriminate E | reflexivity].
Defined.

(** ** Independence of the windows and the remaining summary figures *)

(** X14.  A row depends only on the records of its own window: an order,
    return or ledger row whose instant is outside [period, nextPeriod)
    leaves the row of that period unchanged. *)
Theorem row_ignores_records_of_other_windows timeRange productMap period :
  let outside t := inPeriod period (nextPeriod timeRange period) t = false in
  (forall o orders1 orders2 returns accounts, outside (Order.createdAt o) ->
     periodRow timeRange productMap (orders1 ++ o :: orders2) returns accounts period
     = periodRow timeRange productMap (orders1 ++ orders2) returns accounts period) /\
  (forall r orders returns1 returns2 accounts, outside (Return.createdAt r) ->
     periodRow timeRange productMap orders (returns1 ++ r :: returns2) accounts period
     = periodRow timeRange productMap orders (returns1 ++ returns2) accounts period) /\
  (forall a orders returns accounts1 accounts2, outside (Account.transactionDate a) ->
     periodRow timeRange productMap orders returns (accounts1 ++ a :: accounts2) period
     = periodRow timeRange productMap orders returns (accounts1 ++ accounts2) period).
Proof.
  cbv zeta. repeat apply conj.
  - intros o orders1 orders2 returns accounts H.
    unfold periodRow, periodLocals, periodOrders.
    rewrite filter_remove by exact H. reflexivity.
  - intros r orders returns1 returns2 accounts H.
    unfold periodRow, periodLocals, periodReturns.
    rewrite filter_remove by exact H. reflexivity.
  - intros a orders returns accounts1 accounts2 H.
    unfold periodRow, periodLocals, periodPurchases.
    rewrite filter_remove by (rewrite H; apply andb_false_r). reflexivity.
Qed.

Lemma row_ignores_records_of_other_windows_witness :
  periodRow daily ∅ ([] ++ Order.mk 86400000 100%Q [] :: []) [] [] 0
  = periodRow daily ∅ ([] ++ []) [] [] 0.
Proof.
  destruct (row_ignores_records_of_other_windows daily ∅ 0) as (H & _).
  apply H. vm_compute. reflexivity.
Defined.

(** X15.  The inventory value is the sum of cost basis times stock over the
    catalog with an unset cost basis counted as 0: it does not depend on the
    rows, a product without cost basis or with no stock adds nothing, and it
    is non-negative when no cost basis and no stock quantity is negative. *)
Theorem inventory_value_of_catalog (rows : list ProfitData.t) (products : list Product.t) :
  Statistics.inventoryValue (statistics rows products)
  = Statistics.inventoryValue (statistics [] products) /\
  (forall products1 p products2,
     products = products1 ++ p :: products2 ->
     Product.costPrice p = None \/ Product.stockQuantity p = 0 ->
     (Statistics.inventoryValue (statistics rows products)
      == Statistics.inventoryValue (statistics rows (products1 ++ products2)))%Q) /\
  (Forall (fun p => match Product.costPrice p with
                    | Some c => (0 <= c)%Q
                    | None => True
                    end /\ 0 <= Product.stockQuantity p) products ->
   (0 <= Statistics.inventoryValue (statistics rows products))%Q).
Proof.
  unfold statistics. cbn [Statistics.inventoryValue]. repeat apply conj.
  - reflexivity.
  - intros products1 p products2 -> H.
    set (v := fun p0 : Product.t =>
                (match Product.costPrice p0 with Some c => c | None => 0 end
                 * inject_Z (Product.stockQuantity p0))%Q).
    assert (Sp : forall l1 l2, (sumQ v (l1 ++ l2) == sumQ v l1 + sumQ v l2)%Q).
    { induction l1 as [|x l1 IH]; intros l2;
        [cbn [app]; change (sumQ v []) with 0%Q; ring|].
      cbn [app]. rewrite !sumQ_cons, IH. ring. }
    rewrite !Sp, sumQ_cons.
    assert (Z0 : (v p == 0)%Q).
    { unfold v. destruct H as [H|H]; rewrite H.
      - cbv iota. ring.
      - change (inject_Z 0) with 0%Q. ring. }
    rewrite Z0. ring.
  - intros H. unfold sumQ.
    apply (fold_left_invariant (fun a => (0 <= a)%Q)); [|lra].
    intros a p Hp Ha. rewrite List.Forall_forall in H. destruct (H p Hp) as [Hc Hs].
    assert (Hq : (0 <= inject_Z (Product.stockQuantity p))%Q)
      by (change 0%Q with (inject_Z 0); rewrite <- Zle_Qle; exact Hs).
    destruct (Product.costPrice p) as [c|].
    + pose proof (Qmult_le_0_compat _ _ Hc Hq). lra.
    + lra.
Qed.

Lemma inventory_value_of_catalog_witness :
  (0 <= Statistics.inventoryValue (statistics [] scenarioProducts))%Q.
Proof.
  destruct (inventory_value_of_catalog [] scenarioProducts) as (_ & _ & H).
  apply H. repeat constructor; cbn; [discriminate | lia].
Defined.

(** X16.  In a zone with a fixed UTC offset (time values read as local
    time), the return rate is computed from the records inside the span
    only: with n orders and m returns dated inside the span it is
    m / n * 100 when n > 0, and 0 when no order lies inside the span, however
    many returns there are. *)
Theorem return_rate_from_span now timeRange productMap orders returns accounts products :
  let s := statistics (profitData now timeRange productMap orders returns accounts) products in
  let n := Z.of_nat (length (List.filter (fun o => inSpan timeRange now (Order.createdAt o))
                                         orders)) in
  let m := Z.of_nat (length (List.filter (fun r => inSpan timeRange now (Return.createdAt r))
                                         returns)) in
  (0 < n -> Statistics.returnRate s = (inject_Z m / inject_Z n * 100)%Q) /\
  (n = 0 -> Statistics.returnRate s = 0%Q) /\
  (0 <= Statistics.returnRate s)%Q.
Proof.
  cbv zeta.
  pose proof (window_counts_sum timeRange now Order.createdAt orders) as Co.
  pose proof (window_counts_sum timeRange now Return.createdAt returns) as Cr.
  assert (Eo : sumZ ProfitData.orders (profitData now timeRange productMap orders returns accounts)
               = Z.of_nat (length (List.filter
                                     (fun o => inSpan timeRange now (Order.createdAt o)) orders))).
  { rewrite <- Co. unfold profitData. rewrite sumZ_map. apply sumZ_ext. intros p.
    unfold periodRow. cbn [ProfitData.orders].
    destruct (periodLocals_unfold timeRange productMap orders returns accounts p)
      as (_ & _ & _ & _ & _ & _ & _ & _ & _ & Ho & _).
    cbv zeta in Ho. rewrite Ho. reflexivity. }
  assert (Er : sumZ ProfitData.returns (profitData now timeRange productMap orders returns accounts)
               = Z.of_nat (length (List.filter
                                     (fun r => inSpan timeRange now (Return.createdAt r)) returns))).
  { rewrite <- Cr. unfold profitData. rewrite sumZ_map. apply sumZ_ext. intros p.
    unfold periodRow. cbn [ProfitData.returns].
    destruct (periodLocals_unfold timeRange productMap orders returns accounts p)
      as (_ & _ & _ & _ & _ & _ & _ & _ & _ & _ & Hr).
    cbv zeta in Hr. rewrite Hr. reflexivity. }
  unfold statistics. cbn [Statistics.returnRate]. rewrite Eo, Er.
  set (n := Z.of_nat (length (List.filter _ orders))).
  set (m := Z.of_nat (length (List.filter _ returns))).
  assert (Hm : 0 <= m) by (unfold m; lia).
  repeat apply conj.
  - intros H. destruct (Z.ltb_spec 0 n); [reflexivity | lia].
  - intros H. rewrite H. reflexivity.
  - destruct (Z.ltb_spec 0 n) as [L|L]; [|lra].
    assert (Qm : (0 <= inject_Z m)%Q) by (change 0%Q with (inject_Z 0); rewrite <- Zle_Qle; lia).
    assert (Qn : (0 < inject_Z n)%Q) by (change 0%Q with (inject_Z 0); rewrite <- Zlt_Qlt; lia).
    apply Qmult_le_0_compat; [|lra].
    apply Qle_shift_div_l; [exact Qn | lra].
Qed.

Lemma return_rate_from_span_witness :
  Statistics.returnRate
    (statistics (profitData 86400000 daily ∅ [scenarioOrder] [scenarioReturn] []) [])
  = (inject_Z 1 / inject_Z 1 * 100)%Q.
Proof.
  destruct (return_rate_from_span 86400000 daily ∅ [scenarioOrder] [scenarioReturn] [] [])
    as (H & _).
  cbv zeta in H. rewrite H; [vm_compute; reflexivity | vm_compute; reflexivity].
Defined.
